(** * msaccess-to-docuware-masterdata: the three scripts, embedded and verified

    [insert.py] imports rows of an MS Access query into a DocuWare file
    cabinet and records every imported pair in a local SQLite table,
    [delete.py] empties the file cabinet and the table, [view.py] prints the
    table.  The scripts are embedded as functions over an explicit state: the
    HTTP requests issued so far, the SQLite database, the log and the
    standard output.  Python exceptions are an outcome of every command. *)

From Stdlib Require Import ZArith String List Bool Lia.
From Stdlib Require DecimalString.
From stdpp Require Import base option list strings gmap fin_maps.
Import ListNotations.

Local Open Scope string_scope.
Local Open Scope Z_scope.
Local Open Scope list_scope.

(** ** Python values of a source row *)

(** A cell of the DataFrame read from Access: text, [None] (a NULL of an
    object column) or the float NaN (a NULL of a numeric column). *)
Inductive pyval : Type :=
  | PNone
  | PNaN
  | PStr (s : string).

(** Exceptions, all of them subclasses of Python's [Exception]. *)
Inductive pyexn : Type :=
  | TypeError
  | AttributeError
  | JSONDecodeError
  | RequestException
  | OperationalError
  | Exception (msg : string).

(** [bool(v)]: [None] and the empty string are falsy, NaN is truthy. *)
Definition truthy (v : pyval) : bool :=
  match v with
  | PNone => false
  | PNaN => true
  | PStr s => negb (String.eqb s "")
  end.

(** [a or b] *)
Definition py_or (a b : pyval) : pyval := if truthy a then a else b.

(** [pd.isna(value)] on a scalar. *)
Definition pd_isna (v : pyval) : bool :=
  match v with
  | PNone | PNaN => true
  | PStr _ => false
  end.

(** [isinstance(value, float)] *)
Definition isinstance_float (v : pyval) : bool :=
  match v with
  | PNaN => true
  | _ => false
  end.

(** [math.isnan(value)], called on floats only (the [and] short-circuits). *)
Definition math_isnan (v : pyval) : bool :=
  match v with
  | PNaN => true
  | _ => false
  end.

(** [a + b]: concatenation of two strings, NaN for two floats, a
    [TypeError] for every other pair. *)
Definition py_add (a b : pyval) : pyexn + pyval :=
  match a, b with
  | PStr x, PStr y => inr (PStr (x +:+ y))
  | PNaN, PNaN => inr PNaN
  | _, _ => inl TypeError
  end.

(** [str(n)] for an integer. *)
Definition str_of_Z (n : Z) : string :=
  DecimalString.NilZero.string_of_int (Z.to_int n).

(** A row ([pandas.Series]) maps column labels to cells. *)
Definition Series : Type := list (string * pyval).

(** [row[key]], [None] standing for the [KeyError] of a missing label. *)
Fixpoint Series_getitem (row : Series) (key : string) : option pyval :=
  match row with
  | [] => None
  | (k, v) :: rest => if String.eqb k key then Some v else Series_getitem rest key
  end.

(** [row.get(key, default)] *)
Definition Series_get (row : Series) (key : string) (default : pyval) : pyval :=
  match Series_getitem row key with
  | Some v => v
  | None => default
  end.

Record DataFrame : Type := mkDataFrame {
  columns : list string;
  values : list (list pyval)
}.

(** [pd.DataFrame()] *)
Definition empty_DataFrame : DataFrame := mkDataFrame [] [].

(** [df.empty]: an axis of length 0. *)
Definition df_empty (df : DataFrame) : bool :=
  (length (columns df) =? 0)%nat || (length (values df) =? 0)%nat.

(** [df.iterrows()], the index dropped. *)
Definition iterrows (df : DataFrame) : list Series :=
  map (fun cells => combine (columns df) cells) (values df).

(** ** JSON documents of the DocuWare service *)

#[local] Set Warnings "-register-all".
Inductive json : Type :=
  | JNull
  | JBool (b : bool)
  | JInt (z : Z)
  | JStr (s : string)
  | JArr (l : list json)
  | JObj (o : list (string * json)).

Definition json_truthy (j : json) : bool :=
  match j with
  | JNull => false
  | JBool b => b
  | JInt z => negb (z =? 0)
  | JStr s => negb (String.eqb s "")
  | JArr l => negb (length l =? 0)%nat
  | JObj o => negb (length o =? 0)%nat
  end.

Fixpoint assoc_get (o : list (string * json)) (key : string) (default : json) : json :=
  match o with
  | [] => default
  | (k, v) :: rest => if String.eqb k key then v else assoc_get rest key default
  end.

(** [j.get(key, default)]: only a dict has [get]. *)
Definition json_get (j : json) (key : string) (default : json) : pyexn + json :=
  match j with
  | JObj o => inr (assoc_get o key default)
  | _ => inl AttributeError
  end.

(** [len(j)] *)
Definition json_len (j : json) : pyexn + Z :=
  match j with
  | JArr l => inr (Z.of_nat (length l))
  | JObj o => inr (Z.of_nat (length o))
  | JStr s => inr (Z.of_nat (String.length s))
  | _ => inl TypeError
  end.

(** The elements of [for item in j]. *)
Definition json_iter (j : json) : pyexn + list json :=
  match j with
  | JArr l => inr l
  | JObj o => inr (map (fun kv => JStr (fst kv)) o)
  | JStr s => inr (map (fun c => JStr (String c EmptyString)) (list_ascii_of_string s))
  | _ => inl TypeError
  end.

(** ** HTTP requests and responses *)

(** An element of the [Fields] list of the create payload. *)
Record field : Type := mkField {
  FieldName : string;
  Item : pyval
}.

(** The five requests of the scripts.  The URLs differ from run to run only
    in the document id of a DELETE and the payload of a create. *)
Inductive request : Type :=
  | PostLogon
  | PostLogoff
  | GetDocuments
  | DeleteDocument (data_id : json)
  | PostDocuments (fields : list field).

(** [body] is the parsed JSON of [text], [None] when [text] is not JSON. *)
Record response : Type := mkResponse {
  status_code : Z;
  text : string;
  body : option json
}.

(** The remote service: its answer to a request after a history of requests;
    [inl e] when the HTTP library raises. *)
Definition service : Type := list request -> request -> pyexn + response.

(** The value of [requests.Session()]. *)
Inductive Session : Type := requests_Session.

(** ** The SQLite tracking table *)

Inductive sqlval : Type :=
  | SNull
  | SText (s : string).

(** Binding a Python value to a [?]: [None] and NaN become NULL. *)
Definition bind_param (v : pyval) : sqlval :=
  match v with
  | PNone => SNull
  | PNaN => SNull
  | PStr s => SText s
  end.

(** SQL's [=] and [AND] in three-valued logic, [None] being NULL. *)
Definition sql_eq (a b : sqlval) : option bool :=
  match a, b with
  | SText x, SText y => Some (String.eqb x y)
  | _, _ => None
  end.

Definition sql_and (a b : option bool) : option bool :=
  match a, b with
  | Some false, _ | _, Some false => Some false
  | Some true, Some true => Some true
  | _, _ => None
  end.

(** A row passes [WHERE c] when [c] is true. *)
Definition sql_where (c : option bool) : bool :=
  match c with
  | Some true => true
  | _ => false
  end.

(** Table [(id TEXT PRIMARY KEY, field1 TEXT, field2 TEXT)]: the rows by
    their key. *)
Abbreviation table := (gmap string (sqlval * sqlval)).

(** ** State, outcomes and the command monad *)

Inductive level : Type := INFO | WARNING | ERROR.

Inductive logarg : Type :=
  | LStr (s : string)
  | LInt (n : Z)
  | LJson (j : json)
  | LExn (e : pyexn).

(** A [logging] record: the message as written in the source and its
    arguments; the placeholders of an f-string are left as they are. *)
Record log_entry : Type := mkLog {
  log_level : level;
  log_msg : string;
  log_args : list logarg
}.

Record state : Type := mkState {
  trace : list request;          (* the HTTP requests issued, oldest first *)
  db : option table;             (* [None]: the table does not exist *)
  log : list log_entry;
  stdout : list string
}.

Inductive outcome (A : Type) : Type :=
  | Ok (a : A)
  | Raise (e : pyexn)
  | OutOfFuel.
Arguments Ok {A} a.
Arguments Raise {A} e.
Arguments OutOfFuel {A}.

Definition M (A : Type) : Type := state -> state * outcome A.

#[export] Instance M_ret : MRet M := fun A a s => (s, Ok a).

Definition raise {A} (e : pyexn) : M A := fun s => (s, Raise e).

(** Sequencing stops at the first exception, with the state reached then. *)
#[export] Instance M_bind : MBind M := fun A B k m s =>
  match m s with
  | (s', Ok a) => k a s'
  | (s', Raise e) => (s', Raise e)
  | (s', OutOfFuel) => (s', OutOfFuel)
  end.

(** Lift a pure computation that may raise. *)
Definition lift {A} (r : pyexn + A) : M A :=
  match r with
  | inl e => raise e
  | inr a => mret a
  end.

(** [try: body  except Exception as e: handler(e)] *)
Definition try_except {A} (body : M A) (handler : pyexn -> M A) : M A :=
  fun s =>
    match body s with
    | (s', Raise e) => handler e s'
    | r => r
    end.

(** [for x in xs: body(x)] *)
Fixpoint for_each {A} (body : A -> M unit) (xs : list A) : M unit :=
  match xs with
  | [] => mret tt
  | x :: rest => body x ;; for_each body rest
  end.

(** How an iteration of [while True] ends. *)
Inductive ctl : Type := Break | Continue.

(** [while True: body], cut after [fuel] iterations. *)
Fixpoint while_true (fuel : nat) (body : M ctl) : M unit :=
  match fuel with
  | O => fun s => (s, OutOfFuel)
  | S n =>
      c ← body;
      match c with
      | Break => mret tt
      | Continue => while_true n body
      end
  end.

Definition logging (lvl : level) (msg : string) (args : list logarg) : M unit :=
  fun s => (mkState (trace s) (db s) (log s ++ [mkLog lvl msg args]) (stdout s), Ok tt).

Definition print (line : string) : M unit :=
  fun s => (mkState (trace s) (db s) (log s) (stdout s ++ [line]), Ok tt).

(** An HTTP call of the session: the service answers on the history, and
    the request joins the history whether or not the library raises. *)
Definition http (svc : service) (req : request) : M response :=
  fun s =>
    let s' := mkState (trace s ++ [req]) (db s) (log s) (stdout s) in
    match svc (trace s) req with
    | inl e => (s', Raise e)
    | inr r => (s', Ok r)
    end.

(** [response.json()] *)
Definition response_json (r : response) : pyexn + json :=
  match body r with
  | Some j => inr j
  | None => inl JSONDecodeError
  end.

(** ** insert.py *)

Module SQLiteManager.

(** [CREATE TABLE IF NOT EXISTS] *)
Definition setup : M unit :=
  (fun s =>
     (mkState (trace s)
              (Some (match db s with Some t => t | None => ∅ end))
              (log s) (stdout s), Ok tt)) ;;
  logging INFO "SQLite table '{self.table_name}' initialized." [].

(** The rows of [SELECT 1 FROM t WHERE field1 = ? AND field2 = ?]. *)
Definition select_where (t : table) (p1 p2 : sqlval) : list (string * (sqlval * sqlval)) :=
  List.filter
    (fun r => sql_where (sql_and (sql_eq (fst (snd r)) p1) (sql_eq (snd (snd r)) p2)))
    (map_to_list t).

Definition is_duplicate (field1 field2 : pyval) : M bool :=
  fun s =>
    match db s with
    | None => (s, Raise OperationalError)
    | Some t =>
        let result :=
          select_where t (bind_param (py_or field1 (PStr "")))
                         (bind_param (py_or field2 (PStr ""))) in
        (s, Ok (negb (length result =? 0)%nat))
    end.

(** [fields.get(key)] of the keyword arguments. *)
Definition kwargs_get (fields : list (string * pyval)) (key : string) : pyval :=
  Series_get fields key PNone.

(** [INSERT OR REPLACE]: the row of the same [id] is replaced. *)
Definition insert (id_val : string) (fields : list (string * pyval)) : M unit :=
  (fun s =>
     match db s with
     | None => (s, Raise OperationalError)
     | Some t =>
         (mkState (trace s)
                  (Some (<[id_val := (bind_param (kwargs_get fields "field1"),
                                      bind_param (kwargs_get fields "field2"))]> t))
                  (log s) (stdout s), Ok tt)
     end) ;;
  logging INFO "Eintrag gespeichert: %s" [LStr id_val].

End SQLiteManager.

(** What the Access database gives to [connect_access] and
    [pd.read_sql_query]. *)
Inductive access : Type :=
  | ConnectFails (e : pyexn)
  | QueryFails (e : pyexn)
  | QueryResult (df : DataFrame).

Module Insert.
Section Insert.

Variable svc : service.
(** Python's [hash], salted per process for strings. *)
Variable hash : pyval -> Z.
Variable ACCESS : access.

Definition docuware_login : M Session :=
  response ← http svc PostLogon;
  if negb (status_code response =? 200) then
    logging ERROR "DocuWare login failed: %s" [LStr (text response)] ;;
    raise (Exception "DocuWare login failed.")
  else
    logging INFO "DocuWare login successful." [] ;;
    mret requests_Session.

Definition docuware_logout (session : Session) : M unit :=
  try_except
    (http svc PostLogoff ;;
     logging INFO "DocuWare logout successful." [])
    (fun e => logging ERROR "DocuWare logout error: %s" [LExn e]).

(** The connection, [None] when [pyodbc.connect] raises. *)
Definition connect_access : M (option access) :=
  match ACCESS with
  | ConnectFails e =>
      logging ERROR "Failed to connect to Access: %s" [LExn e] ;;
      mret None
  | conn => mret (Some conn)
  end.

Definition fetch_data : M DataFrame :=
  conn ← connect_access;
  match conn with
  | None => mret empty_DataFrame
  | Some (QueryResult df) =>
      logging INFO "Data fetched successfully." [] ;;
      mret df
  | Some (QueryFails e) | Some (ConnectFails e) =>
      logging ERROR "Failed to fetch data: %s" [LExn e] ;;
      mret empty_DataFrame
  end.

Definition send_to_docuware (fields : list field) : M response :=
  http svc (PostDocuments fields).

Section import_records.

Variable field_mapping : list (string * string).

Definition build_fields (row : Series) : list field :=
  map (fun entry =>
         let field_name := fst entry in
         let source := snd entry in
         let value := Series_get row source (PStr source) in
         let value :=
           if pd_isna value || (isinstance_float value && math_isnan value)
           then PStr "" else value in
         mkField field_name value)
      field_mapping.

(** The body of the loop over [df.iterrows()]. *)
Definition import_row (row : Series) : M unit :=
  let field1 := Series_get row "field1" (PStr "") in
  let field2 := Series_get row "field2" (PStr "") in
  dup ← SQLiteManager.is_duplicate field1 field2;
  if dup : bool then
    logging INFO "Eintrag bereits importiert – übersprungen." []
  else
    let fields := build_fields row in
    response ← send_to_docuware fields;
    if status_code response =? 200 then
      logging INFO "Eintrag erfolgreich importiert." [] ;;
      key ← lift (py_add field1 field2);
      SQLiteManager.insert ("ID_" +:+ str_of_Z (hash key))
                           [("field1", field1); ("field2", field2)]
    else
      logging ERROR "Fehler beim Import: %s" [LInt (status_code response)] ;;
      logging ERROR "Antwort: %s" [LStr (text response)].

Definition import_records (df : DataFrame) : M unit :=
  for_each import_row (iterrows df).

End import_records.

Definition import_set1 (session : Session) : M unit :=
  df ← fetch_data;
  if df_empty df then
    logging WARNING "Aborted: No data found for import." []
  else
    let field_mapping := [("field1", "field1"); ("field2", "field2")] in
    import_records field_mapping df.

(** The [try] block of [main]: the value of the variable [session] when
    the block is left, and how it is left. *)
Definition main_try : state -> state * (option Session * outcome ctl) :=
  fun s =>
    match docuware_login s with
    | (s1, Ok session) =>
        let (s2, o) := (import_set1 session ;; mret Break) s1 in
        (s2, (Some session, o))
    | (s1, Raise e) => (s1, (None, Raise e))
    | (s1, OutOfFuel) => (s1, (None, OutOfFuel))
    end.

(** One iteration of [while True]: the [try] block, then the [finally]
    block, then what the [try] block was doing (break or raise) unless
    the [finally] block raises itself. *)
Definition main_iteration : M ctl :=
  fun s =>
    let '(s1, (session, o)) := main_try s in
    match o with
    | OutOfFuel => (s1, OutOfFuel)
    | _ =>
        let finally :=
          match session with
          | Some session => docuware_logout session
          | None => mret tt
          end in
        match finally s1 with
        | (s2, Ok _) => (s2, o)
        | (s2, Raise e) => (s2, Raise e)
        | (s2, OutOfFuel) => (s2, OutOfFuel)
        end
    end.

Definition main (fuel : nat) : M unit :=
  SQLiteManager.setup ;;
  while_true fuel main_iteration.

End Insert.
End Insert.

(** ** delete.py *)

Module Delete.
Section Delete.

Variable svc : service.

(** A failed login is logged; the session is returned all the same. *)
Definition login : M Session :=
  response ← http svc PostLogon;
  (if negb (status_code response =? 200) then
     logging ERROR "Login failed: %s" [LStr (text response)]
   else
     logging INFO "Login successful." []) ;;
  mret requests_Session.

(** [item.get("Id") or item.get("DocID")] *)
Definition item_id (item : json) : pyexn + json :=
  match json_get item "Id" JNull with
  | inl e => inl e
  | inr id => if json_truthy id then inr id else json_get item "DocID" JNull
  end.

(** The body of [for item in items]. *)
Definition delete_item (session : Session) (item : json) : M unit :=
  data_id ← lift (item_id item);
  del_response ← http svc (DeleteDocument data_id);
  if status_code del_response =? 200 then
    logging INFO "Deleted DocuWare data entry ID: %s" [LJson data_id]
  else
    logging ERROR "Failed to delete DocuWare data entry %s: %s"
            [LJson data_id; LStr (text del_response)].

(** The body of [while True]. *)
Definition delete_iteration (session : Session) : M ctl :=
  response ← http svc GetDocuments;
  if negb (status_code response =? 200) then
    logging ERROR "Failed to load data: %s" [LInt (status_code response)] ;;
    logging ERROR (text response) [] ;;
    mret Break
  else
    parsed ← lift (response_json response);
    items ← lift (json_get parsed "Items" (JArr []));
    data_count ← lift (json_len items);
    logging INFO "Found %d DocuWare data entries to delete." [LInt data_count] ;;
    if data_count =? 0 then
      logging INFO "No more DocuWare data found. Exiting deletion loop." [] ;;
      mret Break
    else
      elements ← lift (json_iter items);
      for_each (delete_item session) elements ;;
      mret Continue.

Definition delete_docuware_data (fuel : nat) (session : Session) : M unit :=
  while_true fuel (delete_iteration session).

(** [DELETE FROM table], an [OperationalError] when the table is missing. *)
Definition clear_sqlite_table : M unit :=
  try_except
    ((fun s =>
        match db s with
        | None => (s, Raise OperationalError)
        | Some _ => (mkState (trace s) (Some ∅) (log s) (stdout s), Ok tt)
        end) ;;
     logging INFO "Local table '{SQLITE_TABLE}' cleared." [])
    (fun e => logging ERROR "SQLite cleanup failed: %s" [LExn e]).

Definition main (fuel : nat) : M unit :=
  try_except
    (session ← login;
     delete_docuware_data fuel session ;;
     clear_sqlite_table)
    (fun e => logging ERROR "Script failed: %s" [LExn e]).

End Delete.
End Delete.

(** ** view.py *)

Module View.

Definition newline : string := String (Ascii.ascii_of_nat 10) EmptyString.

(** [s * n] *)
Fixpoint str_repeat (s : string) (n : nat) : string :=
  match n with
  | O => ""
  | S k => s +:+ str_repeat s k
  end.

(** [str(cell) if cell is not None else ""] *)
Definition cell_str (c : sqlval) : string :=
  match c with
  | SNull => ""
  | SText s => s
  end.

Definition row_line (r : string * (sqlval * sqlval)) : string :=
  String.concat " | " [fst r; cell_str (fst (snd r)); cell_str (snd (snd r))].

(** [SELECT * FROM table] and [fetchall]. *)
Definition fetchall : M (list (string * (sqlval * sqlval))) :=
  fun s =>
    match db s with
    | None => (s, Raise OperationalError)
    | Some t => (s, Ok (map_to_list t))
    end.

Definition print_sqlite_table : M unit :=
  try_except
    (rows ← fetchall;
     if (length rows =? 0)%nat then
       print "No records found."
     else
       print ("Records in '{SQLITE_TABLE}':" +:+ newline) ;;
       let columns := ["id"; "field1"; "field2"] in
       print (String.concat " | " columns) ;;
       print (str_repeat "-" 80) ;;
       for_each (fun row => print (row_line row)) rows)
    (fun e => print "Error reading from SQLite: {e}").

End View.

(** ** Services for concrete runs *)

Definition reply (code : Z) : response := mkResponse code "" None.

(** Every request is answered with the same status. *)
Definition svc_status (code : Z) : service := fun _ _ => inr (reply code).

(** A listing of [items]. *)
Definition listing (items : list json) : response :=
  mkResponse 200 "" (Some (JObj [("Items", JArr items)])).

Definition is_GetDocuments (req : request) : bool :=
  match req with
  | GetDocuments => true
  | _ => false
  end.

(** The k-th listing request is answered with the k-th of [pages], an empty
    listing once they are used up; every other request with status 200. *)
Definition svc_pages (pages : list (list json)) : service :=
  fun tr req =>
    match req with
    | GetDocuments =>
        inr (listing (nth (length (List.filter is_GetDocuments tr)) pages []))
    | _ => inr (reply 200)
    end.

(** Status [code] for the logon, 200 for every other request. *)
Definition svc_logon (code : Z) : service :=
  fun _ req =>
    match req with
    | PostLogon => inr (reply code)
    | _ => inr (reply 200)
    end.

(** Status [code] for every listing, 200 for every other request. *)
Definition svc_list_status (code : Z) : service :=
  fun _ req =>
    match req with
    | GetDocuments => inr (reply code)
    | _ => inr (reply 200)
    end.

Definition document (id : Z) : json := JObj [("Id", JInt id)].

(** A page of [n] documents, with ids from [first]. *)
Definition page (first n : Z) : list json :=
  map (fun i => document (first + Z.of_nat i)) (seq 0 (Z.to_nat n)).

Definition initial (t : option table) : state := mkState [] t [] [].

(** The profile of [import_set1]. *)
Definition mapping1 : list (string * string) :=
  [("field1", "field1"); ("field2", "field2")].

Definition columns1 : list string := ["field1"; "field2"].

(** A tracking table that holds the pair (a, b). *)
Definition table_ab : table := {["ID_1" := (SText "a", SText "b")]}.

Definition hash0 : pyval -> Z := fun _ => 0.

(** ** Predicates of the statements *)

(** The row test of [is_duplicate] on a table. *)
Definition tracked (t : table) (p1 p2 : sqlval) : bool :=
  negb (length (SQLiteManager.select_where t p1 p2) =? 0)%nat.

Definition is_DeleteDocument (req : request) : bool :=
  match req with
  | DeleteDocument _ => true
  | _ => false
  end.

Definition is_PostDocuments (req : request) : bool :=
  match req with
  | PostDocuments _ => true
  | _ => false
  end.

(** The number of DELETE requests in a list of requests. *)
Definition count_deletes (reqs : list request) : Z :=
  Z.of_nat (length (List.filter is_DeleteDocument reqs)).

(** The DELETE request of a listed entry. *)
Definition delete_request (item : json) : request :=
  DeleteDocument (match Delete.item_id item with inr id => id | inl _ => JNull end).

(** The requests of one pass of the deletion loop over a page. *)
Definition page_requests (items : list json) : list request :=
  GetDocuments :: map delete_request items.

Definition is_object (j : json) : Prop := exists o, j = JObj o.

(** From history [tr] on, the service answers each request of [reqs] in
    turn with a response, whatever its status. *)
Fixpoint answered (svc : service) (tr : list request) (reqs : list request) : Prop :=
  match reqs with
  | [] => True
  | req :: rest =>
      (exists r, svc tr req = inr r) /\ answered svc (tr ++ [req]) rest
  end.

(** [listing_script svc tr pages r_end]: from history [tr] on, as long as
    the client deletes what is listed, the listing requests are answered
    with the non-empty [pages] of entries one after the other, all with
    status 200, and the listing request after them with [r_end]. *)
Inductive listing_script (svc : service) :
    list request -> list (list json) -> response -> Prop :=
  | script_end tr r_end :
      svc tr GetDocuments = inr r_end ->
      listing_script svc tr [] r_end
  | script_page tr r parsed items pages r_end :
      svc tr GetDocuments = inr r ->
      status_code r = 200 ->
      body r = Some parsed ->
      json_get parsed "Items" (JArr []) = inr (JArr items) ->
      items <> [] ->
      Forall is_object items ->
      answered svc (tr ++ [GetDocuments]) (map delete_request items) ->
      listing_script svc (tr ++ page_requests items) pages r_end ->
      listing_script svc tr (items :: pages) r_end.

(** A listing with status 200 and zero entries. *)
Definition empty_listing (r : response) : Prop :=
  status_code r = 200 /\
  exists parsed items,
    body r = Some parsed /\
    json_get parsed "Items" (JArr []) = inr items /\
    json_len items = inr 0.

(** What [DELETE FROM table] leaves of the database. *)
Definition cleared (d : option table) : option table :=
  match d with
  | Some _ => Some ∅
  | None => None
  end.

(** A command only adds requests to the history. *)
Definition grows {A} (m : M A) : Prop :=
  forall s, exists rest, trace (fst (m s)) = trace s ++ rest.

(** A command issues [req] first, whatever it does then. *)
Definition starts_with {A} (req : request) (m : M A) : Prop :=
  forall s, exists rest, trace (fst (m s)) = trace s ++ req :: rest.

(** The [try] block of [main] in delete.py. *)
Definition delete_main_body (svc : service) (fuel : nat) : M unit :=
  session ← Delete.login svc;
  Delete.delete_docuware_data svc fuel session ;;
  Delete.clear_sqlite_table.

(** A source of one row whose first cell is [None]. *)
Definition access_none_x : access :=
  QueryResult (mkDataFrame columns1 [[PNone; PStr "x"]]).

(** A command never stops for lack of fuel. *)
Definition fuel_free {A} (m : M A) : Prop :=
  forall s, snd (m s) <> OutOfFuel.

(** The source gives no row: no connection, a failed query, or an empty
    result. *)
Definition no_data (a : access) : Prop :=
  match a with
  | QueryResult df => df_empty df = true
  | _ => True
  end.

(** The create request of a row. *)
Definition create_request (mapping : list (string * string)) (row : Series) : request :=
  PostDocuments (Insert.build_fields mapping row).

(** The listing request after history [tr] ends in exception [e]: the
    HTTP library raises it, or the answer has status 200 and a body that
    is not JSON. *)
Definition listing_raises (svc : service) (tr : list request) (e : pyexn) : Prop :=
  svc tr GetDocuments = inl e \/
  (exists r, svc tr GetDocuments = inr r /\ status_code r = 200 /\
             body r = None /\ e = JSONDecodeError).

(** Every listing is answered with [items], every DELETE with status 403,
    every other request with status 200. *)
Definition svc_stuck (items : list json) : service :=
  fun _ req =>
    match req with
    | GetDocuments => inr (listing items)
    | DeleteDocument _ => inr (reply 403)
    | _ => inr (reply 200)
    end.

(** The header lines of the table dump. *)
Definition dump_header : list string :=
  ["Records in '{SQLITE_TABLE}':" +:+ View.newline;
   "id | field1 | field2";
   View.str_repeat "-" 80].

(** ** build_fields *)

Lemma build_fields_lookup mapping row (i : nat) field_name source :
  mapping !! i = Some (field_name, source) ->
  Insert.build_fields mapping row !! i =
    Some (mkField field_name
            (let value := Series_get row source (PStr source) in
             if pd_isna value || (isinstance_float value && math_isnan value)
             then PStr "" else value)).
Proof.
  intros Hi. unfold Insert.build_fields.
  rewrite list_lookup_fmap, Hi. reflexivity.
Qed.

(** C8: a mapping entry whose source column holds [None] or NaN in the row
    is submitted with the empty string as its [Item], which is neither
    the text null nor the text nan. *)
Theorem C8_null_value_submitted_as_empty_string :
  forall mapping row (i : nat) field_name source v,
    mapping !! i = Some (field_name, source) ->
    Series_getitem row source = Some v ->
    v = PNone \/ v = PNaN ->
    Insert.build_fields mapping row !! i = Some (mkField field_name (PStr "")) /\
    forall f, Insert.build_fields mapping row !! i = Some f ->
      Item f = PStr "" /\
      Item f <> PStr "null" /\ Item f <> PStr "nan" /\
      Item f <> PStr "None" /\ Item f <> PStr "NaN" /\
      Item f <> PNone /\ Item f <> PNaN.
Proof.
  intros mapping row i field_name source v Hi Hget Hv.
  assert (Hf : Insert.build_fields mapping row !! i = Some (mkField field_name (PStr ""))).
  { rewrite (build_fields_lookup _ _ _ _ _ Hi). unfold Series_get. rewrite Hget.
    destruct Hv as [-> | ->]; reflexivity. }
  split; [exact Hf |].
  intros f Hf'. rewrite Hf in Hf'. injection Hf' as <-. cbn.
  repeat split; discriminate.
Qed.

Lemma C8_witness :
  Insert.build_fields [("field1", "field1"); ("field2", "field2")]
                      [("field1", PNone); ("field2", PNaN)] !! 1%nat
  = Some (mkField "field2" (PStr "")).
Proof.
  apply (C8_null_value_submitted_as_empty_string
           [("field1", "field1"); ("field2", "field2")]
           [("field1", PNone); ("field2", PNaN)] 1%nat "field2" "field2" PNaN).
  - reflexivity.
  - reflexivity.
  - right. reflexivity.
Defined.

(** C10: a mapping entry whose source column is missing from the row is
    submitted with the name of the source column as its [Item]; this is
    not the empty string unless the name is. *)
Theorem C10_missing_column_submitted_as_its_name :
  forall mapping row (i : nat) field_name source,
    mapping !! i = Some (field_name, source) ->
    Series_getitem row source = None ->
    Insert.build_fields mapping row !! i = Some (mkField field_name (PStr source)) /\
    (source <> "" -> forall f, Insert.build_fields mapping row !! i = Some f ->
                                Item f <> PStr "").
Proof.
  intros mapping row i field_name source Hi Hget.
  assert (Hf : Insert.build_fields mapping row !! i = Some (mkField field_name (PStr source))).
  { rewrite (build_fields_lookup _ _ _ _ _ Hi). unfold Series_get. rewrite Hget.
    reflexivity. }
  split; [exact Hf |].
  intros Hne f Hf'. rewrite Hf in Hf'. injection Hf' as <-. cbn. congruence.
Qed.

Lemma C10_witness :
  Insert.build_fields [("field1", "field1"); ("Customer", "name")]
                      [("field1", PStr "a"); ("field2", PStr "b")] !! 1%nat
  = Some (mkField "Customer" (PStr "name")).
Proof.
  apply (C10_missing_column_submitted_as_its_name
           [("field1", "field1"); ("Customer", "name")]
           [("field1", PStr "a"); ("field2", PStr "b")] 1%nat "Customer" "name").
  - reflexivity.
  - reflexivity.
Defined.

(** ** The tracking table *)

Lemma sql_where_text a b p1 p2 :
  sql_where (sql_and (sql_eq a p1) (sql_eq b p2)) = true <->
  exists x y, a = SText x /\ b = SText y /\ p1 = SText x /\ p2 = SText y.
Proof.
  split.
  - destruct a as [|x], p1 as [|x'], b as [|y], p2 as [|y']; cbn;
      try discriminate;
      try (destruct (String.eqb _ _); discriminate).
    destruct (String.eqb x x') eqn:Hx, (String.eqb y y') eqn:Hy; cbn;
      try discriminate.
    apply String.eqb_eq in Hx. apply String.eqb_eq in Hy. subst.
    intros _. exists x', y'. repeat split.
  - intros (x & y & -> & -> & -> & ->). cbn. now rewrite !String.eqb_refl.
Qed.

Lemma tracked_true_iff (t : table) p1 p2 :
  tracked t p1 p2 = true <->
  exists id x y, t !! id = Some (SText x, SText y) /\ p1 = SText x /\ p2 = SText y.
Proof.
  unfold tracked, SQLiteManager.select_where. split.
  - intros H.
    destruct (List.filter _ _) as [|[id [a b]] rest] eqn:Hf; [discriminate |].
    assert (Hin : In (id, (a, b)) (List.filter
      (fun r => sql_where (sql_and (sql_eq (fst (snd r)) p1) (sql_eq (snd (snd r)) p2)))
      (map_to_list t))) by (rewrite Hf; left; reflexivity).
    apply filter_In in Hin as [Hin Hw]. cbn in Hw.
    apply sql_where_text in Hw as (x & y & -> & -> & -> & ->).
    apply list_elem_of_In, elem_of_map_to_list in Hin.
    exists id, x, y. repeat split. exact Hin.
  - intros (id & x & y & Hid & -> & ->).
    assert (Hin : In (id, (SText x, SText y)) (List.filter
      (fun r => sql_where (sql_and (sql_eq (fst (snd r)) (SText x))
                                   (sql_eq (snd (snd r)) (SText y))))
      (map_to_list t))).
    { apply filter_In. split.
      - apply list_elem_of_In, elem_of_map_to_list. exact Hid.
      - cbn. now rewrite !String.eqb_refl. }
    destruct (List.filter _ _); [destruct Hin | reflexivity].
Qed.

Lemma tracked_false_iff (t : table) p1 p2 :
  tracked t p1 p2 = false <->
  forall id x y, t !! id = Some (SText x, SText y) -> ~ (p1 = SText x /\ p2 = SText y).
Proof.
  rewrite <- not_true_iff_false, tracked_true_iff. split.
  - intros H id x y Hid [-> ->]. apply H. exists id, x, y. repeat split. exact Hid.
  - intros H (id & x & y & Hid & -> & ->). apply (H id x y Hid). split; reflexivity.
Qed.

(** A row of two texts is found again. *)
Lemma tracked_insert_text (t : table) id x y :
  tracked (<[id := (SText x, SText y)]> t) (SText x) (SText y) = true.
Proof.
  apply tracked_true_iff. exists id, x, y. now rewrite lookup_insert_eq.
Qed.

(** A row with a NULL cell matches no query: the answer is that of the
    other rows. *)
Lemma tracked_insert_null (t : table) id a b p1 p2 :
  a = SNull \/ b = SNull ->
  tracked (<[id := (a, b)]> t) p1 p2 = tracked (delete id t) p1 p2.
Proof.
  intros Hnull. apply eq_true_iff_eq. rewrite !tracked_true_iff.
  split; intros (id' & x & y & Hid & -> & ->); exists id', x, y;
    (split; [| split; reflexivity]).
  - destruct (decide (id = id')) as [<- | Hne].
    + rewrite lookup_insert_eq in Hid. injection Hid as -> ->.
      destruct Hnull; discriminate.
    + rewrite lookup_insert_ne in Hid by exact Hne.
      now rewrite lookup_delete_ne.
  - destruct (decide (id = id')) as [<- | Hne].
    + now rewrite lookup_delete_eq in Hid.
    + rewrite lookup_delete_ne in Hid by exact Hne.
      now rewrite lookup_insert_ne.
Qed.

Lemma tracked_delete_mono (t : table) id p1 p2 :
  tracked (delete id t) p1 p2 = true -> tracked t p1 p2 = true.
Proof.
  rewrite !tracked_true_iff. intros (id' & x & y & Hid & -> & ->).
  exists id', x, y. split; [| split; reflexivity].
  apply lookup_delete_Some in Hid. tauto.
Qed.

Lemma is_duplicate_run field1 field2 s :
  SQLiteManager.is_duplicate field1 field2 s =
    (s, match db s with
        | Some t => Ok (tracked t (bind_param (py_or field1 (PStr "")))
                                  (bind_param (py_or field2 (PStr ""))))
        | None => Raise OperationalError
        end).
Proof.
  unfold SQLiteManager.is_duplicate, tracked. now destruct (db s).
Qed.

(** ** The import loop *)

Lemma import_records_cons svc hash mapping cols cells more s :
  Insert.import_records svc hash mapping (mkDataFrame cols (cells :: more)) s =
    match Insert.import_row svc hash mapping (combine cols cells) s with
    | (s', Ok _) => Insert.import_records svc hash mapping (mkDataFrame cols more) s'
    | (s', Raise e) => (s', Raise e)
    | (s', OutOfFuel) => (s', OutOfFuel)
    end.
Proof. reflexivity. Qed.

(** The row of a tracked pair: one log record, nothing else. *)
Lemma import_row_tracked svc hash mapping row s :
  snd (SQLiteManager.is_duplicate (Series_get row "field1" (PStr ""))
                                  (Series_get row "field2" (PStr "")) s) = Ok true ->
  Insert.import_row svc hash mapping row s =
    (mkState (trace s) (db s)
             (log s ++ [mkLog INFO "Eintrag bereits importiert – übersprungen." []])
             (stdout s), Ok tt).
Proof.
  intros Hdup. rewrite is_duplicate_run in Hdup. cbn in Hdup.
  unfold Insert.import_row. unfold mbind at 1, M_bind at 1.
  rewrite is_duplicate_run.
  destruct (db s) as [t |] eqn:Hdb; [| discriminate]. injection Hdup as ->.
  unfold logging. now rewrite Hdb.
Qed.

(** The row of an untracked pair is submitted, and the answer decides. *)
Lemma import_row_untracked svc hash mapping row s :
  snd (SQLiteManager.is_duplicate (Series_get row "field1" (PStr ""))
                                  (Series_get row "field2" (PStr "")) s) = Ok false ->
  Insert.import_row svc hash mapping row s =
    let field1 := Series_get row "field1" (PStr "") in
    let field2 := Series_get row "field2" (PStr "") in
    let s1 := mkState (trace s ++ [PostDocuments (Insert.build_fields mapping row)])
                      (db s) (log s) (stdout s) in
    match svc (trace s) (PostDocuments (Insert.build_fields mapping row)) with
    | inl e => (s1, Raise e)
    | inr response =>
        if status_code response =? 200 then
          (logging INFO "Eintrag erfolgreich importiert." [] ;;
           key ← lift (py_add field1 field2);
           SQLiteManager.insert ("ID_" +:+ str_of_Z (hash key))
                                [("field1", field1); ("field2", field2)]) s1
        else
          (logging ERROR "Fehler beim Import: %s" [LInt (status_code response)] ;;
           logging ERROR "Antwort: %s" [LStr (text response)]) s1
    end.
Proof.
  intros Hdup. rewrite is_duplicate_run in Hdup. cbn in Hdup.
  unfold Insert.import_row. unfold mbind at 1, M_bind at 1.
  rewrite is_duplicate_run.
  destruct (db s) as [t |] eqn:Hdb; [| discriminate]. injection Hdup as ->.
  cbv beta iota zeta. unfold mbind at 1, M_bind at 1.
  unfold Insert.send_to_docuware, http.
  destruct (svc (trace s) _) as [e | response]; rewrite <- ?Hdb; [reflexivity |].
  destruct (status_code response =? 200); reflexivity.
Qed.

(** C1: a row whose pair [is_duplicate] reports as tracked issues no
    request at all, so no create request; it leaves the tracking table as
    it is, and the loop goes on with the rows after it. *)
Theorem C1_tracked_row_is_skipped :
  forall svc hash mapping cols cells more s,
    let row := combine cols cells in
    snd (SQLiteManager.is_duplicate (Series_get row "field1" (PStr ""))
                                    (Series_get row "field2" (PStr "")) s) = Ok true ->
    let s' := fst (Insert.import_row svc hash mapping row s) in
    snd (Insert.import_row svc hash mapping row s) = Ok tt /\
    trace s' = trace s /\
    List.filter is_PostDocuments (trace s') = List.filter is_PostDocuments (trace s) /\
    db s' = db s /\
    Insert.import_records svc hash mapping (mkDataFrame cols (cells :: more)) s =
      Insert.import_records svc hash mapping (mkDataFrame cols more) s'.
Proof.
  intros svc hash mapping cols cells more s row Hdup s'.
  subst s'. rewrite import_records_cons. fold row.
  rewrite (import_row_tracked svc hash mapping row s Hdup). cbn.
  repeat split.
Qed.

Lemma C1_witness :
  let s := initial (Some table_ab) in
  let row := combine columns1 [PStr "a"; PStr "b"] in
  snd (SQLiteManager.is_duplicate (PStr "a") (PStr "b") s) = Ok true /\
  trace (fst (Insert.import_row (svc_status 200) hash0 mapping1 row s)) = [].
Proof.
  assert (H : snd (SQLiteManager.is_duplicate (PStr "a") (PStr "b")
                     (initial (Some table_ab))) = Ok true).
  { vm_compute. reflexivity. }
  split; [exact H |].
  exact (proj1 (proj2 (C1_tracked_row_is_skipped (svc_status 200) hash0 mapping1
                         columns1 [PStr "a"; PStr "b"] [] (initial (Some table_ab)) H))).
Defined.

Lemma insert_run id_val fields s :
  SQLiteManager.insert id_val fields s =
    match db s with
    | Some t =>
        (mkState (trace s)
                 (Some (<[id_val := (bind_param (SQLiteManager.kwargs_get fields "field1"),
                                     bind_param (SQLiteManager.kwargs_get fields "field2"))]> t))
                 (log s ++ [mkLog INFO "Eintrag gespeichert: %s" [LStr id_val]])
                 (stdout s), Ok tt)
    | None => (s, Raise OperationalError)
    end.
Proof.
  unfold SQLiteManager.insert, mbind, M_bind, logging.
  destruct (db s); reflexivity.
Qed.

(** Whatever the answer, a submitted row adds its create request to the
    history and nothing else. *)
Lemma import_row_untracked_trace svc hash mapping row s :
  snd (SQLiteManager.is_duplicate (Series_get row "field1" (PStr ""))
                                  (Series_get row "field2" (PStr "")) s) = Ok false ->
  trace (fst (Insert.import_row svc hash mapping row s)) =
    trace s ++ [PostDocuments (Insert.build_fields mapping row)].
Proof.
  intros Hdup. rewrite (import_row_untracked _ _ _ _ _ Hdup). cbv zeta.
  destruct (svc (trace s) _) as [e | response]; [reflexivity |].
  destruct (status_code response =? 200); [| reflexivity].
  unfold mbind, M_bind, logging, lift. cbn.
  destruct (py_add _ _) as [e | key]; [reflexivity |].
  unfold mret, M_ret. rewrite insert_run. cbn.
  destruct (db s); reflexivity.
Qed.

(** C3: when the create request of a row is answered with a status other
    than 200, the row leaves the tracking table as it is, its pair is still
    not reported as a duplicate, the loop goes on with the rows after it,
    and a later run on that table submits the row again. *)
Theorem C3_rejected_row_not_recorded :
  forall svc hash mapping cols cells more s response,
    let row := combine cols cells in
    let field1 := Series_get row "field1" (PStr "") in
    let field2 := Series_get row "field2" (PStr "") in
    snd (SQLiteManager.is_duplicate field1 field2 s) = Ok false ->
    svc (trace s) (PostDocuments (Insert.build_fields mapping row)) = inr response ->
    status_code response <> 200 ->
    let s' := fst (Insert.import_row svc hash mapping row s) in
    snd (Insert.import_row svc hash mapping row s) = Ok tt /\
    trace s' = trace s ++ [PostDocuments (Insert.build_fields mapping row)] /\
    db s' = db s /\
    snd (SQLiteManager.is_duplicate field1 field2 s') = Ok false /\
    Insert.import_records svc hash mapping (mkDataFrame cols (cells :: more)) s =
      Insert.import_records svc hash mapping (mkDataFrame cols more) s' /\
    (forall svc2 hash2 s2,
        db s2 = db s' ->
        trace (fst (Insert.import_row svc2 hash2 mapping row s2)) =
          trace s2 ++ [PostDocuments (Insert.build_fields mapping row)]).
Proof.
  intros svc hash mapping cols cells more s response row field1 field2
         Hdup Hsvc Hstatus s'.
  assert (Hrun : Insert.import_row svc hash mapping row s =
                 (mkState (trace s ++ [PostDocuments (Insert.build_fields mapping row)])
                          (db s)
                          (log s ++ [mkLog ERROR "Fehler beim Import: %s"
                                           [LInt (status_code response)];
                                     mkLog ERROR "Antwort: %s" [LStr (text response)]])
                          (stdout s), Ok tt)).
  { rewrite (import_row_untracked _ _ _ _ _ Hdup). cbv zeta. rewrite Hsvc.
    apply Z.eqb_neq in Hstatus. rewrite Hstatus.
    unfold mbind, M_bind, logging. cbn. now rewrite <- app_assoc. }
  assert (Hdb : db s' = db s) by (subst s'; now rewrite Hrun).
  assert (Hdup' : snd (SQLiteManager.is_duplicate field1 field2 s') = Ok false).
  { rewrite is_duplicate_run in Hdup |- *. cbn in Hdup |- *. now rewrite Hdb. }
  repeat split.
  - now rewrite Hrun.
  - subst s'. now rewrite Hrun.
  - exact Hdb.
  - exact Hdup'.
  - rewrite import_records_cons. fold row. subst s'. now rewrite Hrun.
  - intros svc2 hash2 s2 Hdb2. apply import_row_untracked_trace.
    rewrite is_duplicate_run in Hdup' |- *. cbn in Hdup' |- *. now rewrite Hdb2.
Qed.

Lemma C3_witness :
  let s := initial (Some table_ab) in
  let row := combine columns1 [PStr "c"; PStr "d"] in
  let s' := fst (Insert.import_row (svc_status 500) hash0 mapping1 row s) in
  db s' = Some table_ab /\
  snd (SQLiteManager.is_duplicate (PStr "c") (PStr "d") s') = Ok false.
Proof.
  assert (H : snd (SQLiteManager.is_duplicate (PStr "c") (PStr "d")
                     (initial (Some table_ab))) = Ok false).
  { vm_compute. reflexivity. }
  assert (Hstatus : status_code (reply 500) <> 200) by (cbn; lia).
  pose proof (C3_rejected_row_not_recorded (svc_status 500) hash0 mapping1
                columns1 [PStr "c"; PStr "d"] [] (initial (Some table_ab))
                (reply 500) H eq_refl Hstatus) as (_ & _ & Hdb & Hdup & _).
  split; [exact Hdb | exact Hdup].
Defined.

(** A row of two texts that is answered with status 200 is recorded, and
    its pair is a duplicate from then on. *)
Lemma import_row_text_recorded svc hash mapping row s a b response :
  Series_get row "field1" (PStr "") = PStr a ->
  Series_get row "field2" (PStr "") = PStr b ->
  snd (SQLiteManager.is_duplicate (PStr a) (PStr b) s) = Ok false ->
  svc (trace s) (PostDocuments (Insert.build_fields mapping row)) = inr response ->
  status_code response = 200 ->
  let s' := fst (Insert.import_row svc hash mapping row s) in
  snd (Insert.import_row svc hash mapping row s) = Ok tt /\
  snd (SQLiteManager.is_duplicate (PStr a) (PStr b) s') = Ok true.
Proof.
  intros Ha Hb Hdup Hsvc Hstatus s'. subst s'.
  rewrite <- Ha, <- Hb in Hdup.
  rewrite (import_row_untracked _ _ _ _ _ Hdup). cbv zeta.
  rewrite Hsvc, Hstatus, Ha, Hb. cbn.
  rewrite Ha, Hb in Hdup. rewrite is_duplicate_run in Hdup. cbn in Hdup.
  unfold mbind, M_bind, logging, lift, mret, M_ret. cbn.
  rewrite insert_run. cbn.
  destruct (db s) as [t |]; [| discriminate]. cbn.
  split; [reflexivity |].
  f_equal. unfold py_or. cbn.
  destruct (String.eqb a "") eqn:Ea, (String.eqb b "") eqn:Eb; cbn;
    try (apply String.eqb_eq in Ea; subst a);
    try (apply String.eqb_eq in Eb; subst b);
    apply tracked_insert_text.
Qed.

(** C2, at the row (None, x) answered with status 200: the sum
    [field1+field2] raises a [TypeError] after the create request was sent,
    nothing is upserted, and the pair is still not a duplicate. *)
Theorem C2_row_with_None_not_recorded :
  forall hash,
    let row := combine columns1 [PNone; PStr "x"] in
    let s := initial (Some ∅) in
    let r := Insert.import_row (svc_status 200) hash mapping1 row s in
    snd r = Raise TypeError /\
    trace (fst r) = [PostDocuments [mkField "field1" (PStr ""); mkField "field2" (PStr "x")]] /\
    db (fst r) = Some ∅ /\
    snd (SQLiteManager.is_duplicate PNone (PStr "x") (fst r)) = Ok false.
Proof.
  intros hash. cbv zeta.
  assert (Hdup : snd (SQLiteManager.is_duplicate
                        (Series_get (combine columns1 [PNone; PStr "x"]) "field1" (PStr ""))
                        (Series_get (combine columns1 [PNone; PStr "x"]) "field2" (PStr ""))
                        (initial (Some ∅))) = Ok false)
    by (vm_compute; reflexivity).
  rewrite (import_row_untracked _ hash mapping1 _ _ Hdup).
  repeat split.
Qed.

(** The same row with NaN in both cells is upserted as a row of NULLs, which
    no later check finds. *)
Lemma nan_row_recorded_but_not_found hash :
  let row := combine columns1 [PNaN; PNaN] in
  let r := Insert.import_row (svc_status 200) hash mapping1 row (initial (Some ∅)) in
  snd r = Ok tt /\
  db (fst r) = Some {["ID_" +:+ str_of_Z (hash PNaN) := (SNull, SNull)]} /\
  snd (SQLiteManager.is_duplicate PNaN PNaN (fst r)) = Ok false.
Proof.
  cbv zeta.
  assert (Hdup : snd (SQLiteManager.is_duplicate
                        (Series_get (combine columns1 [PNaN; PNaN]) "field1" (PStr ""))
                        (Series_get (combine columns1 [PNaN; PNaN]) "field2" (PStr ""))
                        (initial (Some ∅))) = Ok false)
    by (vm_compute; reflexivity).
  rewrite (import_row_untracked _ hash mapping1 _ _ Hdup). cbn.
  unfold mbind, M_bind, logging, lift, mret, M_ret. cbn.
  rewrite insert_run. cbn. repeat split.
  f_equal. fold (tracked (<["ID_" +:+ str_of_Z (hash PNaN) := (SNull, SNull)]> ∅) SNull SNull).
  rewrite tracked_insert_null by (left; reflexivity).
  apply tracked_false_iff. intros id x y Hid. rewrite delete_empty in Hid.
  now rewrite lookup_empty in Hid.
Qed.

(** Two runs of the import over the same source: the first submits the
    row and records it, the second skips it. *)
Example import_first_run :
  Insert.main (svc_status 200) hash0
              (QueryResult (mkDataFrame columns1 [[PStr "a"; PStr "b"]])) 1
              (initial None) =
    (mkState
       [PostLogon;
        PostDocuments [mkField "field1" (PStr "a"); mkField "field2" (PStr "b")];
        PostLogoff]
       (Some {["ID_0" := (SText "a", SText "b")]})
       [mkLog INFO "SQLite table '{self.table_name}' initialized." [];
        mkLog INFO "DocuWare login successful." [];
        mkLog INFO "Data fetched successfully." [];
        mkLog INFO "Eintrag erfolgreich importiert." [];
        mkLog INFO "Eintrag gespeichert: %s" [LStr "ID_0"];
        mkLog INFO "DocuWare logout successful." []]
       [], Ok tt).
Proof. vm_compute. reflexivity. Qed.

Example import_second_run :
  trace (fst (Insert.main (svc_status 200) hash0
                (QueryResult (mkDataFrame columns1 [[PStr "a"; PStr "b"]])) 1
                (initial (Some {["ID_0" := (SText "a", SText "b")]})))) =
    [PostLogon; PostLogoff].
Proof. vm_compute. reflexivity. Qed.

(** C9: [insert] stores the cells as they are bound, [None] as NULL;
    [is_duplicate] replaces falsy arguments by the empty string before it
    compares; so after [insert(id, field1=None, field2=v)] the check
    [is_duplicate(None, v)] does not find the row just stored: it answers
    false whenever it did before the insert. *)
Theorem C9_insert_None_then_check_fails :
  forall id v s t,
    db s = Some t ->
    snd (SQLiteManager.is_duplicate PNone (PStr v) s) = Ok false ->
    let s' := fst (SQLiteManager.insert id [("field1", PNone); ("field2", PStr v)] s) in
    snd (SQLiteManager.insert id [("field1", PNone); ("field2", PStr v)] s) = Ok tt /\
    db s' = Some (<[id := (SNull, SText v)]> t) /\
    (forall f1 f2 s0 t0,
        db s0 = Some t0 ->
        db (fst (SQLiteManager.insert id [("field1", f1); ("field2", f2)] s0)) =
          Some (<[id := (bind_param f1, bind_param f2)]> t0)) /\
    (forall f1 f2 s0,
        SQLiteManager.is_duplicate f1 f2 s0 =
        SQLiteManager.is_duplicate (py_or f1 (PStr "")) (py_or f2 (PStr "")) s0) /\
    SQLiteManager.is_duplicate PNone (PStr v) s' =
      SQLiteManager.is_duplicate (PStr "") (PStr v) s' /\
    snd (SQLiteManager.is_duplicate PNone (PStr v) s') = Ok false.
Proof.
  intros id v s t Hdb Hdup s'.
  assert (Hrun : SQLiteManager.insert id [("field1", PNone); ("field2", PStr v)] s =
                 (mkState (trace s) (Some (<[id := (SNull, SText v)]> t))
                          (log s ++ [mkLog INFO "Eintrag gespeichert: %s" [LStr id]])
                          (stdout s), Ok tt))
    by (rewrite insert_run, Hdb; reflexivity).
  assert (Hdb' : db s' = Some (<[id := (SNull, SText v)]> t))
    by (subst s'; now rewrite Hrun).
  split; [now rewrite Hrun |]. split; [exact Hdb' |]. split; [| split; [| split]].
  - intros f1 f2 s0 t0 Hdb0. now rewrite insert_run, Hdb0.
  - intros f1 f2 s0. rewrite !is_duplicate_run.
    assert (Hor : forall f, py_or (py_or f (PStr "")) (PStr "") = py_or f (PStr "")).
    { intros [| | x]; try reflexivity. unfold py_or. cbn.
      destruct (String.eqb x "") eqn:E; cbn; [reflexivity | now rewrite E]. }
    now rewrite !Hor.
  - rewrite !is_duplicate_run. reflexivity.
  - rewrite is_duplicate_run in Hdup |- *. rewrite Hdb in Hdup. rewrite Hdb'.
    cbn [snd] in Hdup |- *. f_equal. injection Hdup as Hdup.
    rewrite tracked_insert_null by (left; reflexivity).
    destruct (tracked (delete id t) _ _) eqn:Hd; [| reflexivity].
    apply tracked_delete_mono in Hd. exact (eq_trans (eq_sym Hd) Hdup).
Qed.

Lemma C9_witness :
  let s := initial (Some ∅) in
  let s' := fst (SQLiteManager.insert "ID_7" [("field1", PNone); ("field2", PStr "x")] s) in
  db s' = Some {["ID_7" := (SNull, SText "x")]} /\
  snd (SQLiteManager.is_duplicate PNone (PStr "x") s') = Ok false.
Proof.
  assert (H : snd (SQLiteManager.is_duplicate PNone (PStr "x") (initial (Some ∅))) = Ok false)
    by (vm_compute; reflexivity).
  pose proof (C9_insert_None_then_check_fails "ID_7" "x" (initial (Some ∅)) ∅ eq_refl H)
    as (_ & Hdb & _ & _ & _ & Hdup).
  split; [exact Hdb | exact Hdup].
Defined.

(** ** The deletion loop *)

Lemma item_id_object o :
  Delete.item_id (JObj o) =
    inr (if json_truthy (assoc_get o "Id" JNull) then assoc_get o "Id" JNull
         else assoc_get o "DocID" JNull).
Proof.
  unfold Delete.item_id. cbn. now destruct (json_truthy _).
Qed.

(** One entry: its DELETE request, then a log record. *)
Lemma delete_item_answered svc session item r s :
  is_object item ->
  svc (trace s) (delete_request item) = inr r ->
  exists l,
    Delete.delete_item svc session item s =
      (mkState (trace s ++ [delete_request item]) (db s) (log s ++ [l]) (stdout s), Ok tt).
Proof.
  intros [o ->] Hsvc. unfold delete_request in *. unfold Delete.delete_item.
  rewrite item_id_object in *.
  unfold mbind, M_bind, lift, mret, M_ret, http. cbn. rewrite Hsvc.
  destruct (status_code r =? 200); eexists; reflexivity.
Qed.

Lemma delete_items_answered svc session items :
  Forall is_object items ->
  forall s,
    answered svc (trace s) (map delete_request items) ->
    exists l,
      for_each (Delete.delete_item svc session) items s =
        (mkState (trace s ++ map delete_request items) (db s) (log s ++ l) (stdout s),
         Ok tt).
Proof.
  induction 1 as [| item items Hobj _ IH]; intros s Hans.
  - exists []. cbn. rewrite !app_nil_r. now destruct s.
  - cbn in Hans. destruct Hans as [[r Hr] Hrest].
    destruct (delete_item_answered svc session item r s Hobj Hr) as [l1 Hitem].
    cbn [for_each]. unfold mbind, M_bind. rewrite Hitem.
    destruct (IH (mkState (trace s ++ [delete_request item]) (db s) (log s ++ [l1])
                          (stdout s)) Hrest) as [l2 Hitems].
    rewrite Hitems. cbn. exists (l1 :: l2).
    now rewrite <- !app_assoc.
Qed.

(** A pass over a listed, non-empty page deletes every entry and asks for
    the next page. *)
Lemma delete_iteration_page svc session s r parsed items :
  svc (trace s) GetDocuments = inr r ->
  status_code r = 200 ->
  body r = Some parsed ->
  json_get parsed "Items" (JArr []) = inr (JArr items) ->
  items <> [] ->
  Forall is_object items ->
  answered svc (trace s ++ [GetDocuments]) (map delete_request items) ->
  exists l,
    Delete.delete_iteration svc session s =
      (mkState (trace s ++ page_requests items) (db s) (log s ++ l) (stdout s),
       Ok Continue).
Proof.
  intros Hsvc Hstatus Hbody Hitems Hne Hobj Hans.
  destruct (delete_items_answered svc session items Hobj
              (mkState (trace s ++ [GetDocuments]) (db s)
                 (log s ++ [mkLog INFO "Found %d DocuWare data entries to delete."
                                  [LInt (Z.of_nat (length items))]])
                 (stdout s)) Hans) as [l Hrun].
  unfold Delete.delete_iteration, http, response_json, mbind, M_bind, mret, M_ret.
  rewrite Hsvc, Hstatus, Hbody. cbn -[for_each]. rewrite Hitems.
  cbn -[for_each Z.of_nat length].
  replace (Z.of_nat (length items) =? 0) with false
    by (symmetry; apply Z.eqb_neq; destruct items; [contradiction | cbn [length]; lia]).
  cbn -[for_each Z.of_nat length] in Hrun |- *. rewrite Hrun.
  eexists. rewrite <- !app_assoc. reflexivity.
Qed.

(** A pass that ends the loop: the listing failed, or it is empty. *)
Lemma delete_iteration_end svc session s r_end :
  svc (trace s) GetDocuments = inr r_end ->
  status_code r_end <> 200 \/ empty_listing r_end ->
  exists l,
    Delete.delete_iteration svc session s =
      (mkState (trace s ++ [GetDocuments]) (db s) (log s ++ l) (stdout s), Ok Break).
Proof.
  intros Hsvc Hend.
  unfold Delete.delete_iteration, http.
  unfold mbind at 1, M_bind at 1. rewrite Hsvc.
  destruct Hend as [Hstatus | (Hstatus & parsed & items & Hbody & Hitems & Hlen)].
  - apply Z.eqb_neq in Hstatus. rewrite Hstatus. cbn [negb].
    unfold mbind, M_bind, logging, mret, M_ret. cbn.
    eexists. rewrite <- !app_assoc. reflexivity.
  - rewrite Hstatus. cbn [negb Z.eqb Pos.eqb].
    unfold response_json. rewrite Hbody. cbn [lift].
    unfold mbind at 1, M_bind at 1, mret at 1, M_ret at 1.
    rewrite Hitems. cbn [lift].
    unfold mbind at 1, M_bind at 1, mret at 1, M_ret at 1.
    rewrite Hlen. cbn [lift].
    unfold mbind, M_bind, logging, mret, M_ret. cbn.
    eexists. rewrite <- !app_assoc. reflexivity.
Qed.

(** The loop on a scripted service: a pass per page, then the pass that
    ends it. *)
Lemma delete_docuware_data_script svc session tr pages r_end :
  listing_script svc tr pages r_end ->
  status_code r_end <> 200 \/ empty_listing r_end ->
  forall fuel s,
    trace s = tr ->
    (length pages < fuel)%nat ->
    exists l,
      Delete.delete_docuware_data svc fuel session s =
        (mkState (trace s ++ flat_map page_requests pages ++ [GetDocuments])
                 (db s) (log s ++ l) (stdout s), Ok tt).
Proof.
  intros Hscript Hend.
  induction Hscript as [tr r_end Hsvc
                       | tr r parsed items pages r_end Hsvc Hstatus Hbody Hitems
                            Hne Hobj Hans Hscript IH];
    intros fuel s Htr Hfuel; subst tr.
  - destruct fuel as [| fuel]; [cbn in Hfuel; lia |].
    destruct (delete_iteration_end svc session s r_end Hsvc Hend) as [l Hrun].
    unfold Delete.delete_docuware_data. cbn [while_true].
    unfold mbind, M_bind. rewrite Hrun. exists l. reflexivity.
  - destruct fuel as [| fuel]; [cbn in Hfuel; lia |].
    destruct (delete_iteration_page svc session s r parsed items
                Hsvc Hstatus Hbody Hitems Hne Hobj Hans) as [l1 Hrun].
    unfold Delete.delete_docuware_data. cbn [while_true].
    unfold mbind at 1, M_bind at 1. rewrite Hrun.
    destruct (IH Hend fuel
                (mkState (trace s ++ page_requests items) (db s) (log s ++ l1) (stdout s))
                eq_refl ltac:(cbn [length] in Hfuel; lia)) as [l2 Hrest].
    unfold Delete.delete_docuware_data in Hrest. rewrite Hrest.
    cbn [trace db log stdout flat_map].
    exists (l1 ++ l2). rewrite <- !app_assoc. reflexivity.
Qed.

Lemma filter_deletes_page items :
  List.filter is_DeleteDocument (page_requests items) = map delete_request items.
Proof.
  unfold page_requests. cbn. induction items as [| item items IH]; [reflexivity |].
  cbn. now rewrite IH.
Qed.

Lemma filter_deletes_pages pages :
  List.filter is_DeleteDocument (flat_map page_requests pages ++ [GetDocuments]) =
    map delete_request (concat pages).
Proof.
  rewrite List.filter_app. cbn. rewrite app_nil_r.
  induction pages as [| items pages IH]; [reflexivity |].
  cbn [flat_map concat]. rewrite List.filter_app, filter_deletes_page, IH.
  now rewrite map_app.
Qed.

Lemma filter_listings_page items :
  List.filter is_GetDocuments (page_requests items) = [GetDocuments].
Proof.
  unfold page_requests. cbn. f_equal.
  induction items as [| item items IH]; [reflexivity | exact IH].
Qed.

(** C4: on a service that lists the non-empty pages one after the other
    and then an empty page, the deletion loop returns; it has issued, page
    by page, the listing request and one DELETE request for each entry of
    the page, and nothing after the listing request that came back empty.
    For two pages of 10000 entries these are 20000 DELETE requests. *)
Theorem C4_one_delete_per_listed_entry :
  forall svc session pages r_end s fuel,
    listing_script svc (trace s) pages r_end ->
    empty_listing r_end ->
    (length pages < fuel)%nat ->
    exists s',
      Delete.delete_docuware_data svc fuel session s = (s', Ok tt) /\
      trace s' = trace s ++ flat_map page_requests pages ++ [GetDocuments] /\
      List.filter is_DeleteDocument (flat_map page_requests pages ++ [GetDocuments]) =
        map delete_request (concat pages) /\
      List.filter is_GetDocuments (flat_map page_requests pages ++ [GetDocuments]) =
        repeat GetDocuments (S (length pages)) /\
      (forall p1 p2,
          pages = [p1; p2] ->
          Z.of_nat (length p1) = 10000 ->
          Z.of_nat (length p2) = 10000 ->
          count_deletes (flat_map page_requests pages ++ [GetDocuments]) = 20000).
Proof.
  intros svc session pages r_end s fuel Hscript Hempty Hfuel.
  destruct (delete_docuware_data_script svc session (trace s) pages r_end
              Hscript (or_intror Hempty) fuel s eq_refl Hfuel) as [l Hrun].
  eexists. split; [exact Hrun |]. cbn [trace].
  split; [reflexivity |]. split; [apply filter_deletes_pages |]. split.
  - rewrite List.filter_app. cbn [List.filter is_GetDocuments].
    clear. induction pages as [| items pages IH]; [reflexivity |].
    cbn [flat_map]. rewrite List.filter_app, filter_listings_page in *.
    rewrite <- app_assoc, IH. reflexivity.
  - intros p1 p2 -> H1 H2. unfold count_deletes.
    rewrite filter_deletes_pages, length_map. cbn [concat].
    rewrite !length_app. cbn [length]. lia.
Qed.

(** The service of [svc_pages] follows its script. *)
Lemma svc_pages_answered pages items tr :
  answered (svc_pages pages) tr (map delete_request items).
Proof.
  revert tr. induction items as [| item items IH]; intros tr; cbn; [exact I |].
  split; [eexists; reflexivity | apply IH].
Qed.

Lemma svc_pages_script done pages tr :
  length (List.filter is_GetDocuments tr) = length done ->
  Forall (fun items => items <> [] /\ Forall is_object items) pages ->
  listing_script (svc_pages (done ++ pages)) tr pages (listing []).
Proof.
  intros Hdone Hpages. revert done tr Hdone.
  induction Hpages as [| items pages [Hne Hobj] _ IH]; intros done tr Hdone.
  - apply script_end. cbn. rewrite Hdone, app_nil_r.
    now rewrite nth_overflow by lia.
  - eapply script_page with (r := listing items).
    + cbn. rewrite Hdone. now rewrite nth_middle.
    + reflexivity.
    + reflexivity.
    + reflexivity.
    + exact Hne.
    + exact Hobj.
    + apply svc_pages_answered.
    + replace (done ++ items :: pages) with ((done ++ [items]) ++ pages)
        by (now rewrite <- app_assoc).
      apply IH. rewrite List.filter_app, filter_listings_page, !length_app, Hdone.
      reflexivity.
Qed.

Lemma page_objects first n : Forall is_object (page first n).
Proof.
  unfold page. apply Forall_map, Forall_forall. intros i _. eexists. reflexivity.
Qed.

Lemma page_length first n : 0 <= n -> Z.of_nat (length (page first n)) = n.
Proof.
  intros Hn. unfold page. rewrite length_map, length_seq. lia.
Qed.

Lemma page_nonempty first n : 0 < n -> page first n <> [].
Proof.
  intros Hn Hnil. apply (f_equal (@length json)) in Hnil.
  pose proof (page_length first n ltac:(lia)) as Hlen. rewrite Hnil in Hlen.
  cbn in Hlen. lia.
Qed.

Lemma C4_witness :
  let pages := [page 1 10000; page 10001 10000] in
  exists s',
    Delete.delete_docuware_data (svc_pages pages) 3 requests_Session (initial None)
      = (s', Ok tt) /\
    count_deletes (trace s') = 20000.
Proof.
  intros pages.
  assert (Hscript : listing_script (svc_pages pages) (trace (initial None)) pages
                                   (listing [])).
  { apply (svc_pages_script [] pages []); [reflexivity |].
    constructor; [| constructor; [| constructor]];
      (split; [apply page_nonempty; lia | apply page_objects]). }
  assert (Hempty : empty_listing (listing [])).
  { split; [reflexivity |]. exists (JObj [("Items", JArr [])]), (JArr []).
    repeat split. }
  assert (Hfuel : (length pages < 3)%nat) by (subst pages; cbn [length]; lia).
  destruct (C4_one_delete_per_listed_entry (svc_pages pages) requests_Session pages
              (listing []) (initial None) 3%nat Hscript Hempty Hfuel)
    as (s' & Hrun & Htrace & _ & _ & Hcount).
  exists s'. split; [exact Hrun |].
  rewrite Htrace. cbn [initial trace app].
  apply (Hcount (page 1 10000) (page 10001 10000) eq_refl);
    apply page_length; lia.
Defined.

Example delete_run_small :
  Delete.delete_docuware_data (svc_pages [page 1 2; page 3 1]) 3 requests_Session
                              (initial None) =
    (mkState
       [GetDocuments; DeleteDocument (JInt 1); DeleteDocument (JInt 2);
        GetDocuments; DeleteDocument (JInt 3); GetDocuments]
       None
       [mkLog INFO "Found %d DocuWare data entries to delete." [LInt 2];
        mkLog INFO "Deleted DocuWare data entry ID: %s" [LJson (JInt 1)];
        mkLog INFO "Deleted DocuWare data entry ID: %s" [LJson (JInt 2)];
        mkLog INFO "Found %d DocuWare data entries to delete." [LInt 1];
        mkLog INFO "Deleted DocuWare data entry ID: %s" [LJson (JInt 3)];
        mkLog INFO "Found %d DocuWare data entries to delete." [LInt 0];
        mkLog INFO "No more DocuWare data found. Exiting deletion loop." []]
       [], Ok tt).
Proof. vm_compute. reflexivity. Qed.

(** ** The delete-all entry point *)

Lemma login_answered svc s r :
  svc (trace s) PostLogon = inr r ->
  exists l,
    Delete.login svc s =
      (mkState (trace s ++ [PostLogon]) (db s) (log s ++ [l]) (stdout s),
       Ok requests_Session).
Proof.
  intros Hsvc. unfold Delete.login, http, mbind, M_bind, mret, M_ret, logging.
  rewrite Hsvc. destruct (negb (status_code r =? 200)); eexists; reflexivity.
Qed.

Lemma clear_sqlite_table_run s :
  exists l,
    Delete.clear_sqlite_table s =
      (mkState (trace s) (cleared (db s)) (log s ++ [l]) (stdout s), Ok tt).
Proof.
  unfold Delete.clear_sqlite_table, try_except, mbind, M_bind, logging.
  destruct (db s) eqn:Hdb; cbn; rewrite ?Hdb; eexists; reflexivity.
Qed.

(** C5, as the code has it: when a listing request is answered with a
    status other than 200, the deletion loop ends with that request, and
    the run goes on to clear the tracking table, which is left empty. *)
Theorem C5_failed_listing_ends_loop_and_table_is_cleared :
  forall svc pages r_end r_login s fuel,
    svc (trace s) PostLogon = inr r_login ->
    listing_script svc (trace s ++ [PostLogon]) pages r_end ->
    status_code r_end <> 200 ->
    (length pages < fuel)%nat ->
    exists s',
      Delete.main svc fuel s = (s', Ok tt) /\
      trace s' = trace s ++ PostLogon :: flat_map page_requests pages ++ [GetDocuments] /\
      db s' = cleared (db s) /\
      forall t, db s = Some t -> db s' = Some ∅.
Proof.
  intros svc pages r_end r_login s fuel Hlogin Hscript Hstatus Hfuel.
  destruct (login_answered svc s r_login Hlogin) as [l1 Hrun1].
  destruct (delete_docuware_data_script svc requests_Session _ pages r_end
              Hscript (or_introl Hstatus) fuel
              (mkState (trace s ++ [PostLogon]) (db s) (log s ++ [l1]) (stdout s))
              eq_refl Hfuel) as [l2 Hrun2].
  match type of Hrun2 with
  | _ = (?s2, _) => destruct (clear_sqlite_table_run s2) as [l3 Hrun3]
  end.
  unfold Delete.main, try_except, mbind, M_bind.
  rewrite Hrun1, Hrun2, Hrun3. cbn [trace db log stdout].
  eexists. split; [reflexivity |]. cbn [trace db].
  split; [now rewrite <- app_assoc |]. split; [reflexivity |].
  intros t Ht. now rewrite Ht.
Qed.

Lemma C5_witness :
  exists s',
    Delete.main (svc_list_status 500) 1 (initial (Some table_ab)) = (s', Ok tt) /\
    db s' = Some ∅.
Proof.
  assert (Hstatus : status_code (reply 500) <> 200) by (cbn; lia).
  assert (Hfuel : (length (@nil (list json)) < 1)%nat) by (cbn; lia).
  destruct (C5_failed_listing_ends_loop_and_table_is_cleared
              (svc_list_status 500) [] (reply 500) (reply 200)
              (initial (Some table_ab)) 1%nat eq_refl
              (script_end (svc_list_status 500) _ (reply 500) eq_refl)
              Hstatus Hfuel) as (s' & Hrun & _ & _ & Hdb).
  exists s'. split; [exact Hrun |]. apply (Hdb table_ab). reflexivity.
Defined.

(** The claim as the specification has it fails: the listing is answered
    with status 500, and the table that held a row is empty afterwards. *)
Lemma C5_counterexample :
  let s := initial (Some table_ab) in
  let r := Delete.main (svc_list_status 500) 1 s in
  svc_list_status 500 [PostLogon] GetDocuments = inr (reply 500) /\
  snd r = Ok tt /\
  trace (fst r) = [PostLogon; GetDocuments] /\
  db s = Some table_ab /\
  db (fst r) = Some ∅ /\
  db (fst r) <> db s.
Proof.
  cbv zeta.
  assert (Hdb : db (fst (Delete.main (svc_list_status 500) 1 (initial (Some table_ab))))
                = Some ∅) by (vm_compute; reflexivity).
  split; [reflexivity |]. split; [vm_compute; reflexivity |].
  split; [vm_compute; reflexivity |]. split; [reflexivity |].
  split; [exact Hdb |].
  rewrite Hdb. cbn. intros H.
  apply (f_equal (fun d : option table =>
                    match d with Some t => t !! "ID_1" | None => None end)) in H.
  unfold table_ab in H. rewrite lookup_empty, lookup_singleton_eq in H.
  discriminate.
Qed.

(** ** Requests only accumulate *)

Lemma grows_ret {A} (a : A) : grows (mret a).
Proof. intros s. exists []. cbn. now rewrite app_nil_r. Qed.

Lemma grows_lift {A} (r : pyexn + A) : grows (lift r).
Proof. intros s. exists []. destruct r; cbn; now rewrite app_nil_r. Qed.

Lemma grows_logging lvl msg args : grows (logging lvl msg args).
Proof. intros s. exists []. cbn. now rewrite app_nil_r. Qed.

Lemma grows_http svc req : grows (http svc req).
Proof.
  intros s. exists [req]. unfold http. now destruct (svc (trace s) req).
Qed.

Lemma grows_bind {A B} (m : M A) (k : A -> M B) :
  grows m -> (forall a, grows (k a)) -> grows (m ≫= k).
Proof.
  intros Hm Hk s. unfold mbind, M_bind.
  destruct (Hm s) as [rest1 H1]. destruct (m s) as [s1 [a | e |]]; cbn in H1.
  - destruct (Hk a s1) as [rest2 H2]. exists (rest1 ++ rest2).
    now rewrite H2, H1, app_assoc.
  - exists rest1. exact H1.
  - exists rest1. exact H1.
Qed.

Lemma grows_try_except {A} (m : M A) (h : pyexn -> M A) :
  grows m -> (forall e, grows (h e)) -> grows (try_except m h).
Proof.
  intros Hm Hh s. unfold try_except.
  destruct (Hm s) as [rest1 H1]. destruct (m s) as [s1 [a | e |]]; cbn in H1.
  - exists rest1. exact H1.
  - destruct (Hh e s1) as [rest2 H2]. exists (rest1 ++ rest2).
    now rewrite H2, H1, app_assoc.
  - exists rest1. exact H1.
Qed.

Lemma grows_for_each {A} (body : A -> M unit) xs :
  (forall x, grows (body x)) -> grows (for_each body xs).
Proof.
  intros Hbody. induction xs as [| x xs IH]; cbn [for_each].
  - apply grows_ret.
  - apply grows_bind; [apply Hbody | intros _; exact IH].
Qed.

Lemma grows_while_true fuel (body : M ctl) :
  grows body -> grows (while_true fuel body).
Proof.
  intros Hbody. induction fuel as [| fuel IH]; cbn [while_true].
  - intros s. exists []. cbn. now rewrite app_nil_r.
  - apply grows_bind; [exact Hbody |]. intros [|]; [apply grows_ret | exact IH].
Qed.

Lemma starts_with_http_bind {A} svc req (k : response -> M A) :
  (forall r, grows (k r)) -> starts_with req (http svc req ≫= k).
Proof.
  intros Hk s. unfold mbind, M_bind, http.
  destruct (svc (trace s) req) as [e | r].
  - exists []. reflexivity.
  - destruct (Hk r (mkState (trace s ++ [req]) (db s) (log s) (stdout s)))
      as [rest H].
    exists rest. rewrite H. cbn. now rewrite <- app_assoc.
Qed.

Lemma starts_with_bind {A B} req (m : M A) (k : A -> M B) :
  starts_with req m -> (forall a, grows (k a)) -> starts_with req (m ≫= k).
Proof.
  intros Hm Hk s. unfold mbind, M_bind.
  destruct (Hm s) as [rest1 H1]. destruct (m s) as [s1 [a | e |]]; cbn in H1.
  - destruct (Hk a s1) as [rest2 H2]. exists (rest1 ++ rest2).
    rewrite H2, H1, <- app_assoc. reflexivity.
  - exists rest1. exact H1.
  - exists rest1. exact H1.
Qed.

Lemma grows_delete_item svc session item : grows (Delete.delete_item svc session item).
Proof.
  unfold Delete.delete_item.
  apply grows_bind; [apply grows_lift |]. intros data_id.
  apply grows_bind; [apply grows_http |]. intros r.
  destruct (status_code r =? 200); apply grows_logging.
Qed.

Lemma starts_with_delete_iteration svc session :
  starts_with GetDocuments (Delete.delete_iteration svc session).
Proof.
  unfold Delete.delete_iteration. apply starts_with_http_bind. intros r.
  destruct (negb (status_code r =? 200)).
  - repeat (apply grows_bind; [apply grows_logging | intros _]). apply grows_ret.
  - apply grows_bind; [apply grows_lift | intros parsed].
    apply grows_bind; [apply grows_lift | intros items].
    apply grows_bind; [apply grows_lift | intros data_count].
    apply grows_bind; [apply grows_logging | intros _].
    destruct (data_count =? 0).
    + apply grows_bind; [apply grows_logging | intros _]. apply grows_ret.
    + apply grows_bind; [apply grows_lift | intros elements].
      apply grows_bind; [| intros _; apply grows_ret].
      apply grows_for_each. intros item. apply grows_delete_item.
Qed.

Lemma grows_delete_iteration svc session : grows (Delete.delete_iteration svc session).
Proof.
  intros s. destruct (starts_with_delete_iteration svc session s) as [rest H].
  eexists. exact H.
Qed.

Lemma grows_clear_sqlite_table : grows Delete.clear_sqlite_table.
Proof.
  intros s. destruct (clear_sqlite_table_run s) as [l H]. rewrite H.
  exists []. cbn. now rewrite app_nil_r.
Qed.

(** ** Login failures and the entry points *)

Lemma setup_run s :
  SQLiteManager.setup s =
    (mkState (trace s) (Some (match db s with Some t => t | None => ∅ end))
             (log s ++ [mkLog INFO "SQLite table '{self.table_name}' initialized." []])
             (stdout s), Ok tt).
Proof. reflexivity. Qed.

Lemma docuware_login_rejected svc s r :
  svc (trace s) PostLogon = inr r ->
  status_code r <> 200 ->
  Insert.docuware_login svc s =
    (mkState (trace s ++ [PostLogon]) (db s)
             (log s ++ [mkLog ERROR "DocuWare login failed: %s" [LStr (text r)]])
             (stdout s),
     Raise (Exception "DocuWare login failed.")).
Proof.
  intros Hsvc Hstatus. apply Z.eqb_neq in Hstatus.
  unfold Insert.docuware_login, http, mbind, M_bind. rewrite Hsvc, Hstatus.
  reflexivity.
Qed.

(** The logout has its own handler: it returns. *)
Lemma docuware_logout_returns svc session s :
  exists s', Insert.docuware_logout svc session s = (s', Ok tt).
Proof.
  unfold Insert.docuware_logout, try_except, http, mbind, M_bind, logging.
  destruct (svc (trace s) PostLogoff); eexists; reflexivity.
Qed.

(** What the [try] block of the import raises leaves [main]. *)
Lemma insert_main_reraises svc hash ACCESS fuel s s1 session e :
  Insert.main_try svc hash ACCESS (fst (SQLiteManager.setup s)) = (s1, (session, Raise e)) ->
  snd (Insert.main svc hash ACCESS (S fuel) s) = Raise e.
Proof.
  intros Htry. unfold Insert.main. unfold mbind at 1, M_bind at 1.
  rewrite setup_run in *. cbn [fst] in Htry. cbn [while_true].
  unfold mbind, M_bind, Insert.main_iteration. rewrite Htry.
  destruct session as [session |].
  - destruct (docuware_logout_returns svc session s1) as [s2 Hout].
    rewrite Hout. reflexivity.
  - reflexivity.
Qed.

Lemma insert_main_login_rejected svc hash ACCESS fuel s r :
  svc (trace s) PostLogon = inr r ->
  status_code r <> 200 ->
  Insert.main svc hash ACCESS (S fuel) s =
    (mkState (trace s ++ [PostLogon])
             (Some (match db s with Some t => t | None => ∅ end))
             (log s ++ [mkLog INFO "SQLite table '{self.table_name}' initialized." [];
                        mkLog ERROR "DocuWare login failed: %s" [LStr (text r)]])
             (stdout s),
     Raise (Exception "DocuWare login failed.")).
Proof.
  intros Hsvc Hstatus.
  pose proof (docuware_login_rejected svc (fst (SQLiteManager.setup s)) r Hsvc Hstatus)
    as Hlogin.
  unfold Insert.main. unfold mbind at 1, M_bind at 1.
  rewrite setup_run in *. cbn [fst while_true] in *.
  unfold mbind, M_bind, Insert.main_iteration, Insert.main_try.
  rewrite Hlogin. cbn.
  now rewrite <- app_assoc.
Qed.

Lemma delete_login_run svc s r :
  svc (trace s) PostLogon = inr r ->
  Delete.login svc s =
    (mkState (trace s ++ [PostLogon]) (db s)
             (log s ++ [if negb (status_code r =? 200)
                        then mkLog ERROR "Login failed: %s" [LStr (text r)]
                        else mkLog INFO "Login successful." []])
             (stdout s),
     Ok requests_Session).
Proof.
  intros Hsvc. unfold Delete.login, http, mbind, M_bind, mret, M_ret, logging.
  rewrite Hsvc. now destruct (negb (status_code r =? 200)).
Qed.

(** C7: when the logon is answered with a status other than 200, the
    import raises out of [main] with the logon as its only request, whatever
    the source holds, and the tracking table only set up; the delete flow
    logs the failure, gets its session and goes on to the listing request. *)
Theorem C7_login_failure_aborts_import_not_delete :
  forall svc hash ACCESS r s fuel,
    svc (trace s) PostLogon = inr r ->
    status_code r <> 200 ->
    (exists s',
        Insert.main svc hash ACCESS (S fuel) s =
          (s', Raise (Exception "DocuWare login failed.")) /\
        trace s' = trace s ++ [PostLogon] /\
        db s' = Some (match db s with Some t => t | None => ∅ end)) /\
    Delete.login svc s =
      (mkState (trace s ++ [PostLogon]) (db s)
               (log s ++ [mkLog ERROR "Login failed: %s" [LStr (text r)]])
               (stdout s),
       Ok requests_Session) /\
    (exists rest,
        trace (fst (Delete.main svc (S fuel) s)) =
          trace s ++ PostLogon :: GetDocuments :: rest).
Proof.
  intros svc hash ACCESS r s fuel Hsvc Hstatus.
  split; [| split].
  - eexists. split; [apply (insert_main_login_rejected _ _ _ _ _ r Hsvc Hstatus) |].
    split; reflexivity.
  - rewrite (delete_login_run svc s r Hsvc).
    apply Z.eqb_neq in Hstatus. now rewrite Hstatus.
  - assert (Hrest : starts_with GetDocuments
                      (Delete.delete_docuware_data svc (S fuel) requests_Session ;;
                       Delete.clear_sqlite_table)).
    { apply starts_with_bind; [| intros _; apply grows_clear_sqlite_table].
      unfold Delete.delete_docuware_data. cbn [while_true].
      apply starts_with_bind; [apply starts_with_delete_iteration |].
      intros [|]; [apply grows_ret |].
      apply grows_while_true, grows_delete_iteration. }
    unfold Delete.main, try_except. unfold mbind at 1, M_bind at 1.
    rewrite (delete_login_run svc s r Hsvc).
    match goal with
    | |- context [(?m ;; Delete.clear_sqlite_table) ?s1] =>
        destruct (Hrest s1) as [rest H];
        destruct ((m ;; Delete.clear_sqlite_table) s1) as [s2 [[] | e |]]
    end; cbn in H |- *; rewrite H, <- app_assoc; eexists; reflexivity.
Qed.

Lemma C7_witness :
  snd (Insert.main (svc_logon 401) hash0 access_none_x 1 (initial None)) =
    Raise (Exception "DocuWare login failed.") /\
  exists rest,
    trace (fst (Delete.main (svc_logon 401) 1 (initial None))) =
      PostLogon :: GetDocuments :: rest.
Proof.
  assert (Hstatus : status_code (reply 401) <> 200) by (cbn; lia).
  destruct (C7_login_failure_aborts_import_not_delete
              (svc_logon 401) hash0 access_none_x (reply 401) (initial None) 0%nat
              eq_refl Hstatus) as ((s' & Hrun & _) & _ & Hdelete).
  split; [now rewrite Hrun | exact Hdelete].
Defined.

Lemma delete_main_catches svc fuel s :
  Delete.main svc fuel s =
    match delete_main_body svc fuel s with
    | (s1, Raise e) =>
        (mkState (trace s1) (db s1)
                 (log s1 ++ [mkLog ERROR "Script failed: %s" [LExn e]]) (stdout s1),
         Ok tt)
    | r => r
    end.
Proof.
  unfold Delete.main, try_except. fold (delete_main_body svc fuel).
  now destruct (delete_main_body svc fuel s) as [s1 [[] | e |]].
Qed.

Lemma for_each_print_returns {A} (line : A -> string) xs s :
  for_each (fun x => print (line x)) xs s =
    (mkState (trace s) (db s) (log s) (stdout s ++ map line xs), Ok tt).
Proof.
  revert s. induction xs as [| x xs IH]; intros s; cbn [for_each map].
  - rewrite app_nil_r. now destruct s.
  - unfold mbind, M_bind, print at 1. rewrite IH. cbn.
    now rewrite <- app_assoc.
Qed.

Lemma print_sqlite_table_returns s :
  exists lines,
    View.print_sqlite_table s =
      (mkState (trace s) (db s) (log s) (stdout s ++ lines), Ok tt) /\
    (db s = None -> lines = ["Error reading from SQLite: {e}"]).
Proof.
  unfold View.print_sqlite_table, try_except, View.fetchall.
  unfold mbind at 1, M_bind at 1.
  destruct (db s) as [t |] eqn:Hdb.
  - destruct (length (map_to_list t) =? 0)%nat.
    + exists ["No records found."]. unfold print. rewrite Hdb.
      split; [reflexivity | discriminate].
    + unfold mbind, M_bind, print at 1 2 3. cbn [fst snd].
      rewrite for_each_print_returns. cbn [trace db log stdout]. rewrite Hdb.
      eexists. rewrite <- !app_assoc. split; [reflexivity | discriminate].
  - exists ["Error reading from SQLite: {e}"]. unfold print. rewrite Hdb.
    split; reflexivity.
Qed.

(** C6, as the code has it: the delete-all and the view entry points catch
    every exception of their work and report it in one record or line, so
    none leaves them; the import entry point has a [finally] block and no
    handler, so what its [try] block raises leaves [main]. *)
Theorem C6_delete_and_view_catch_all_import_reraises :
  forall svc hash ACCESS fuel s,
    (forall e, snd (Delete.main svc fuel s) <> Raise e) /\
    (forall s1 e,
        delete_main_body svc fuel s = (s1, Raise e) ->
        Delete.main svc fuel s =
          (mkState (trace s1) (db s1)
                   (log s1 ++ [mkLog ERROR "Script failed: %s" [LExn e]]) (stdout s1),
           Ok tt)) /\
    snd (View.print_sqlite_table s) = Ok tt /\
    (db s = None ->
     View.print_sqlite_table s =
       (mkState (trace s) (db s) (log s)
                (stdout s ++ ["Error reading from SQLite: {e}"]), Ok tt)) /\
    (forall s1 session e,
        Insert.main_try svc hash ACCESS (fst (SQLiteManager.setup s))
          = (s1, (session, Raise e)) ->
        snd (Insert.main svc hash ACCESS (S fuel) s) = Raise e).
Proof.
  intros svc hash ACCESS fuel s.
  split; [| split; [| split; [| split]]].
  - intros e. rewrite delete_main_catches.
    destruct (delete_main_body svc fuel s) as [s1 [[] | e1 |]]; discriminate.
  - intros s1 e Hbody. now rewrite delete_main_catches, Hbody.
  - destruct (print_sqlite_table_returns s) as (lines & Hrun & _). now rewrite Hrun.
  - intros Hdb. destruct (print_sqlite_table_returns s) as (lines & Hrun & Hlines).
    now rewrite Hrun, (Hlines Hdb).
  - intros s1 session e. apply insert_main_reraises.
Qed.

Lemma C6_witness :
  Delete.main (svc_status 200) 1 (initial None) =
    (mkState [PostLogon; GetDocuments] None
             [mkLog INFO "Login successful." [];
              mkLog ERROR "Script failed: %s" [LExn JSONDecodeError]] [],
     Ok tt) /\
  View.print_sqlite_table (initial None) =
    (mkState [] None [] ["Error reading from SQLite: {e}"], Ok tt) /\
  snd (Insert.main (svc_logon 401) hash0 access_none_x 1 (initial None)) =
    Raise (Exception "DocuWare login failed.").
Proof.
  destruct (C6_delete_and_view_catch_all_import_reraises
              (svc_status 200) hash0 access_none_x 1%nat (initial None))
    as (_ & Hdelete & _ & Hview & _).
  destruct (C6_delete_and_view_catch_all_import_reraises
              (svc_logon 401) hash0 access_none_x 0%nat (initial None))
    as (_ & _ & _ & _ & Himport).
  split; [| split].
  - apply (Hdelete (mkState [PostLogon; GetDocuments] None
                            [mkLog INFO "Login successful." []] []) JSONDecodeError).
    vm_compute. reflexivity.
  - apply Hview. reflexivity.
  - apply (Himport (mkState [PostLogon] (Some ∅)
                            [mkLog INFO "SQLite table '{self.table_name}' initialized." [];
                             mkLog ERROR "DocuWare login failed: %s" [LStr ""]] [])
                   None).
    vm_compute. reflexivity.
Defined.

(** The claim as the specification has it fails for the import: a rejected
    logon, and the [TypeError] of a row with a [None] cell, leave [main]. *)
Lemma C6_counterexample :
  snd (Insert.main (svc_logon 401) hash0 access_none_x 1 (initial None)) =
    Raise (Exception "DocuWare login failed.") /\
  snd (Insert.main (svc_status 200) hash0 access_none_x 1 (initial None)) =
    Raise TypeError /\
  trace (fst (Insert.main (svc_status 200) hash0 access_none_x 1 (initial None))) =
    [PostLogon;
     PostDocuments [mkField "field1" (PStr ""); mkField "field2" (PStr "x")];
     PostLogoff].
Proof.
  split; [| split]; vm_compute; reflexivity.
Qed.


(** * Further properties of the scripts *)

(** ** The field set *)

(** X15: the field set has one entry per mapping entry, named after the
    mapping's keys in their order, and a text cell is submitted as it is. *)
Theorem build_fields_names_and_text :
  forall mapping row,
    map FieldName (Insert.build_fields mapping row) = map fst mapping /\
    length (Insert.build_fields mapping row) = length mapping /\
    forall (i : nat) field_name source txt,
      mapping !! i = Some (field_name, source) ->
      Series_getitem row source = Some (PStr txt) ->
      Insert.build_fields mapping row !! i = Some (mkField field_name (PStr txt)).
Proof.
  intros mapping row. split; [| split].
  - unfold Insert.build_fields. rewrite map_map. reflexivity.
  - unfold Insert.build_fields. apply length_map.
  - intros i field_name source txt Hi Hget.
    rewrite (build_fields_lookup _ _ _ _ _ Hi). unfold Series_get. now rewrite Hget.
Qed.

Lemma build_fields_names_and_text_witness :
  Insert.build_fields mapping1 (combine columns1 [PStr "nan"; PStr "b"]) !! 0%nat =
    Some (mkField "field1" (PStr "nan")).
Proof.
  destruct (build_fields_names_and_text mapping1 (combine columns1 [PStr "nan"; PStr "b"]))
    as (_ & _ & H).
  apply (H 0%nat "field1" "field1" "nan"); reflexivity.
Defined.

(** ** The tracking table, continued *)

Lemma bind_param_or_text x :
  bind_param (py_or (PStr x) (PStr "")) = SText x.
Proof.
  unfold py_or. cbn. destruct (String.eqb x "") eqn:E; cbn; [| reflexivity].
  apply String.eqb_eq in E. now subst.
Qed.

Lemma tracked_insert (t : table) id a b p1 p2 :
  tracked (<[id := (a, b)]> t) p1 p2 =
    sql_where (sql_and (sql_eq a p1) (sql_eq b p2)) || tracked (delete id t) p1 p2.
Proof.
  apply eq_true_iff_eq. rewrite orb_true_iff, sql_where_text, !tracked_true_iff. split.
  - intros (id' & x & y & Hid & -> & ->).
    destruct (decide (id = id')) as [<- | Hne].
    + rewrite lookup_insert_eq in Hid. injection Hid as -> ->.
      left. exists x, y. repeat split.
    + rewrite lookup_insert_ne in Hid by exact Hne.
      right. exists id', x, y. rewrite lookup_delete_ne by exact Hne. repeat split.
      exact Hid.
  - intros [(x & y & -> & -> & -> & ->) | (id' & x & y & Hid & -> & ->)].
    + exists id, x, y. rewrite lookup_insert_eq. repeat split.
    + apply lookup_delete_Some in Hid as [Hne Hid].
      exists id', x, y. rewrite lookup_insert_ne by exact Hne. repeat split. exact Hid.
Qed.

(** X9: after [insert(id, field1=f1, field2=f2)] a pair is a duplicate
    exactly when it matches the row just stored or a row stored under
    another id; the row that was stored under [id] before no longer
    counts. *)
Theorem is_duplicate_after_insert :
  forall id f1 f2 g1 g2 s t,
    db s = Some t ->
    let s' := fst (SQLiteManager.insert id [("field1", f1); ("field2", f2)] s) in
    let p1 := bind_param (py_or g1 (PStr "")) in
    let p2 := bind_param (py_or g2 (PStr "")) in
    snd (SQLiteManager.is_duplicate g1 g2 s') =
      Ok (sql_where (sql_and (sql_eq (bind_param f1) p1) (sql_eq (bind_param f2) p2))
          || tracked (delete id t) p1 p2) /\
    (tracked (delete id t) p1 p2 = true -> tracked t p1 p2 = true).
Proof.
  intros id f1 f2 g1 g2 s t Hdb s' p1 p2. subst s'.
  rewrite insert_run, Hdb. cbn [fst]. rewrite is_duplicate_run. cbn [db snd].
  split; [| apply tracked_delete_mono].
  f_equal. apply tracked_insert.
Qed.

Lemma is_duplicate_after_insert_witness :
  snd (SQLiteManager.is_duplicate (PStr "a") (PStr "b")
         (fst (SQLiteManager.insert "ID_1" [("field1", PStr "c"); ("field2", PStr "d")]
                 (initial (Some table_ab))))) = Ok false.
Proof.
  destruct (is_duplicate_after_insert "ID_1" (PStr "c") (PStr "d") (PStr "a") (PStr "b")
              (initial (Some table_ab)) table_ab eq_refl) as [H _].
  rewrite H. vm_compute. reflexivity.
Defined.

(** X10: a NaN cell is bound as NULL, so a pair with a NaN in it is never
    a duplicate, whatever the table holds, and a row with a NaN in
    [field1] or [field2] is submitted by every run. *)
Theorem nan_pair_never_duplicate :
  forall svc hash mapping row f s t,
    db s = Some t ->
    snd (SQLiteManager.is_duplicate PNaN f s) = Ok false /\
    snd (SQLiteManager.is_duplicate f PNaN s) = Ok false /\
    (Series_get row "field1" (PStr "") = PNaN \/
     Series_get row "field2" (PStr "") = PNaN ->
     trace (fst (Insert.import_row svc hash mapping row s)) =
       trace s ++ [create_request mapping row]).
Proof.
  intros svc hash mapping row f s t Hdb.
  assert (Hleft : forall g, snd (SQLiteManager.is_duplicate PNaN g s) = Ok false).
  { intros g. rewrite is_duplicate_run, Hdb. cbn [snd]. f_equal.
    apply tracked_false_iff. intros id x y _ [H _]. discriminate. }
  assert (Hright : forall g, snd (SQLiteManager.is_duplicate g PNaN s) = Ok false).
  { intros g. rewrite is_duplicate_run, Hdb. cbn [snd]. f_equal.
    apply tracked_false_iff. intros id x y _ [_ H]. discriminate. }
  split; [apply Hleft |]. split; [apply Hright |].
  intros [H | H]; apply import_row_untracked_trace; rewrite H;
    [apply Hleft | apply Hright].
Qed.

Lemma nan_pair_never_duplicate_witness :
  snd (SQLiteManager.is_duplicate PNaN (PStr "b") (initial (Some table_ab))) = Ok false.
Proof.
  apply (nan_pair_never_duplicate (svc_status 200) hash0 mapping1 [] (PStr "b")
           (initial (Some table_ab)) table_ab eq_refl).
Defined.

(** X1: [setup] creates the table when it is missing and keeps the rows
    of a table that exists; a second [setup] changes nothing of the
    database; after it the duplicate check answers and does not raise. *)
Theorem setup_keeps_rows_and_is_idempotent :
  forall s,
    let s1 := fst (SQLiteManager.setup s) in
    snd (SQLiteManager.setup s) = Ok tt /\
    trace s1 = trace s /\
    (forall t, db s = Some t -> db s1 = Some t) /\
    (db s = None -> db s1 = Some ∅) /\
    db (fst (SQLiteManager.setup s1)) = db s1 /\
    (forall f1 f2, exists b, snd (SQLiteManager.is_duplicate f1 f2 s1) = Ok b) /\
    (forall f1 f2, db s = None -> snd (SQLiteManager.is_duplicate f1 f2 s1) = Ok false).
Proof.
  intros s s1. subst s1. rewrite !setup_run. cbn [fst snd trace db].
  split; [reflexivity |]. split; [reflexivity |].
  split; [intros t Ht; now rewrite Ht |].
  split; [intros Ht; now rewrite Ht |].
  split; [now destruct (db s) |]. split.
  - intros f1 f2. rewrite is_duplicate_run. cbn [db snd]. eexists. reflexivity.
  - intros f1 f2 Ht. rewrite is_duplicate_run. cbn [db snd]. rewrite Ht.
    reflexivity.
Qed.

Lemma setup_keeps_rows_and_is_idempotent_witness :
  db (fst (SQLiteManager.setup (initial (Some table_ab)))) = Some table_ab.
Proof.
  destruct (setup_keeps_rows_and_is_idempotent (initial (Some table_ab)))
    as (_ & _ & H & _).
  apply H. reflexivity.
Defined.

(** ** The table dump *)

Lemma print_sqlite_table_run s t :
  db s = Some t ->
  View.print_sqlite_table s =
    (mkState (trace s) (db s) (log s)
             (stdout s ++ (if (length (map_to_list t) =? 0)%nat
                           then ["No records found."]
                           else dump_header ++ map View.row_line (map_to_list t))),
     Ok tt).
Proof.
  intros Hdb.
  unfold View.print_sqlite_table, try_except, View.fetchall.
  unfold mbind at 1, M_bind at 1. rewrite Hdb.
  destruct (length (map_to_list t) =? 0)%nat.
  - unfold print. now rewrite Hdb.
  - unfold mbind, M_bind, print at 1 2 3. cbn [fst snd].
    rewrite for_each_print_returns. cbn [trace db log stdout]. rewrite Hdb.
    unfold dump_header. now rewrite <- !app_assoc.
Qed.



(** X2: clearing a table that exists leaves no pair a duplicate and a dump
    that reports no records; clearing a missing table is logged as a
    failed cleanup, raises nothing and creates no table, so that the dump
    still reports its error. *)
Theorem clear_leaves_nothing_tracked :
  forall s,
    let s' := fst (Delete.clear_sqlite_table s) in
    snd (Delete.clear_sqlite_table s) = Ok tt /\
    trace s' = trace s /\
    (forall t, db s = Some t ->
       (forall f1 f2, snd (SQLiteManager.is_duplicate f1 f2 s') = Ok false) /\
       stdout (fst (View.print_sqlite_table s')) = stdout s ++ ["No records found."]) /\
    (db s = None ->
       db s' = None /\
       log s' = log s ++ [mkLog ERROR "SQLite cleanup failed: %s" [LExn OperationalError]] /\
       stdout (fst (View.print_sqlite_table s')) =
         stdout s ++ ["Error reading from SQLite: {e}"]).
Proof.
  intros s s'. subst s'.
  unfold Delete.clear_sqlite_table, try_except, mbind, M_bind, logging.
  destruct (db s) as [t |] eqn:Hdb; cbn [fst snd trace db log stdout].
  - split; [reflexivity |]. split; [reflexivity |]. split; [| discriminate].
    intros t' _. split.
    + intros f1 f2. rewrite is_duplicate_run. reflexivity.
    + erewrite print_sqlite_table_run by reflexivity.
      cbn [fst stdout]. now rewrite map_to_list_empty.
  - split; [reflexivity |]. split; [reflexivity |]. split; [discriminate |].
    intros _. rewrite Hdb. split; [reflexivity |]. split; [reflexivity |].
    match goal with
    | |- context [View.print_sqlite_table ?s1] =>
        destruct (print_sqlite_table_returns s1) as (lines & Hrun & Hlines)
    end.
    rewrite Hrun. cbn [fst stdout]. now rewrite (Hlines eq_refl).
Qed.

Lemma clear_leaves_nothing_tracked_witness :
  snd (SQLiteManager.is_duplicate (PStr "a") (PStr "b")
         (fst (Delete.clear_sqlite_table (initial (Some table_ab))))) = Ok false.
Proof.
  destruct (clear_leaves_nothing_tracked (initial (Some table_ab))) as (_ & _ & H & _).
  destruct (H table_ab eq_refl) as [Hdup _]. apply Hdup.
Defined.

(** ** The import loop, continued *)

Lemma is_duplicate_text a b s t :
  db s = Some t ->
  snd (SQLiteManager.is_duplicate (PStr a) (PStr b) s) = Ok (tracked t (SText a) (SText b)).
Proof.
  intros Hdb. rewrite is_duplicate_run, Hdb. cbn [snd].
  now rewrite !bind_param_or_text.
Qed.

(** The state after a row of two texts that is answered with status 200. *)
Lemma import_row_text_run svc hash mapping row s t a b r :
  db s = Some t ->
  Series_get row "field1" (PStr "") = PStr a ->
  Series_get row "field2" (PStr "") = PStr b ->
  tracked t (SText a) (SText b) = false ->
  svc (trace s) (create_request mapping row) = inr r ->
  status_code r = 200 ->
  Insert.import_row svc hash mapping row s =
    (mkState (trace s ++ [create_request mapping row])
             (Some (<["ID_" +:+ str_of_Z (hash (PStr (a +:+ b))) := (SText a, SText b)]> t))
             (log s ++ [mkLog INFO "Eintrag erfolgreich importiert." [];
                        mkLog INFO "Eintrag gespeichert: %s"
                              [LStr ("ID_" +:+ str_of_Z (hash (PStr (a +:+ b))))]])
             (stdout s), Ok tt).
Proof.
  intros Hdb Ha Hb Htracked Hsvc Hstatus.
  assert (Hdup : snd (SQLiteManager.is_duplicate (Series_get row "field1" (PStr ""))
                        (Series_get row "field2" (PStr "")) s) = Ok false).
  { rewrite Ha, Hb, (is_duplicate_text a b s t Hdb). now rewrite Htracked. }
  rewrite (import_row_untracked _ _ _ _ _ Hdup). cbv zeta.
  unfold create_request in Hsvc. rewrite Hsvc, Hstatus, Ha, Hb. cbn [Z.eqb Pos.eqb].
  unfold mbind, M_bind, logging, lift, mret, M_ret. cbn [py_add].
  rewrite insert_run. cbn [db trace log stdout]. rewrite Hdb.
  cbn [SQLiteManager.kwargs_get]. unfold SQLiteManager.kwargs_get, Series_get.
  cbn. now rewrite <- app_assoc.
Qed.

(** What a row adds to the history: nothing, or its create request. *)
Lemma import_row_requests svc hash mapping row s :
  trace (fst (Insert.import_row svc hash mapping row s)) = trace s \/
  trace (fst (Insert.import_row svc hash mapping row s)) =
    trace s ++ [create_request mapping row].
Proof.
  destruct (snd (SQLiteManager.is_duplicate (Series_get row "field1" (PStr ""))
                   (Series_get row "field2" (PStr "")) s)) as [[|] | e |] eqn:Hdup.
  - left. now rewrite (import_row_tracked _ _ _ _ _ Hdup).
  - right. now apply import_row_untracked_trace.
  - left. rewrite is_duplicate_run in Hdup. cbn in Hdup.
    unfold Insert.import_row. unfold mbind at 1, M_bind at 1.
    rewrite is_duplicate_run. now destruct (db s).
  - rewrite is_duplicate_run in Hdup. cbn in Hdup. now destruct (db s).
Qed.

Lemma import_rows_requests svc hash mapping rows :
  forall s,
    exists reqs,
      trace (fst (for_each (Insert.import_row svc hash mapping) rows s)) =
        trace s ++ reqs /\
      sublist reqs (map (create_request mapping) rows).
Proof.
  induction rows as [| row rows IH]; intros s.
  - exists []. cbn. rewrite app_nil_r. split; [reflexivity | constructor].
  - cbn [for_each map]. unfold mbind, M_bind.
    pose proof (import_row_requests svc hash mapping row s) as Hrow.
    destruct (Insert.import_row svc hash mapping row s) as [s1 [[] | e |]];
      cbn [fst] in Hrow.
    + destruct (IH s1) as (reqs & Hreqs & Hsub). rewrite Hreqs.
      destruct Hrow as [-> | ->].
      * exists reqs. split; [reflexivity | now apply sublist_cons].
      * exists (create_request mapping row :: reqs).
        split; [now rewrite <- app_assoc | now apply sublist_skip].
    + cbn [fst]. destruct Hrow as [-> | ->].
      * exists []. rewrite app_nil_r. split; [reflexivity | apply sublist_nil_l].
      * exists [create_request mapping row].
        split; [reflexivity |]. apply sublist_skip, sublist_nil_l.
    + cbn [fst]. destruct Hrow as [-> | ->].
      * exists []. rewrite app_nil_r. split; [reflexivity | apply sublist_nil_l].
      * exists [create_request mapping row].
        split; [reflexivity |]. apply sublist_skip, sublist_nil_l.
Qed.

(** X6: the import loop issues create requests only: the requests it adds
    are create requests of rows of the frame, in the order of the rows and
    at most one for each row. *)
Theorem import_records_issues_only_create_requests :
  forall svc hash mapping df s,
    exists reqs,
      trace (fst (Insert.import_records svc hash mapping df s)) = trace s ++ reqs /\
      sublist reqs (map (create_request mapping) (iterrows df)) /\
      (length reqs <= length (values df))%nat /\
      Forall (fun req => is_PostDocuments req = true) reqs.
Proof.
  intros svc hash mapping df s. unfold Insert.import_records.
  destruct (import_rows_requests svc hash mapping (iterrows df) s)
    as (reqs & Htrace & Hsub).
  exists reqs. split; [exact Htrace |]. split; [exact Hsub |]. split.
  - apply sublist_length in Hsub. rewrite length_map in Hsub.
    unfold iterrows in Hsub. now rewrite length_map in Hsub.
  - apply Forall_forall. intros req Hin.
    apply (elem_of_sublist _ _ _ Hin) in Hsub.
    apply list_elem_of_In, in_map_iff in Hsub as (row & <- & _). reflexivity.
Qed.

Lemma import_row_rejected_db svc hash mapping row s :
  (forall r, svc (trace s) (create_request mapping row) = inr r -> status_code r <> 200) ->
  db (fst (Insert.import_row svc hash mapping row s)) = db s.
Proof.
  intros Hrej.
  destruct (snd (SQLiteManager.is_duplicate (Series_get row "field1" (PStr ""))
                   (Series_get row "field2" (PStr "")) s)) as [[|] | e |] eqn:Hdup.
  - now rewrite (import_row_tracked _ _ _ _ _ Hdup).
  - rewrite (import_row_untracked _ _ _ _ _ Hdup). cbv zeta.
    unfold create_request in Hrej.
    destruct (svc (trace s) _) as [e | r]; [reflexivity |].
    specialize (Hrej r eq_refl). apply Z.eqb_neq in Hrej. rewrite Hrej. reflexivity.
  - rewrite is_duplicate_run in Hdup. cbn in Hdup.
    unfold Insert.import_row. unfold mbind at 1, M_bind at 1.
    rewrite is_duplicate_run.
    destruct (db s) eqn:Hdb; [discriminate | cbn; exact Hdb].
  - rewrite is_duplicate_run in Hdup. cbn in Hdup. now destruct (db s).
Qed.

(** X16: when the service answers no create request with status 200, the
    import loop leaves the tracking table as it was, whatever the rows and
    however the loop ends, so every pair is as much a duplicate after the
    loop as it was before. *)
Theorem import_records_all_rejected_table_unchanged :
  forall svc hash mapping df s,
    (forall tr fields r, svc tr (PostDocuments fields) = inr r -> status_code r <> 200) ->
    let s' := fst (Insert.import_records svc hash mapping df s) in
    db s' = db s /\
    forall f1 f2,
      snd (SQLiteManager.is_duplicate f1 f2 s') = snd (SQLiteManager.is_duplicate f1 f2 s).
Proof.
  intros svc hash mapping df s Hrej s'.
  assert (Hdb : db s' = db s).
  { subst s'. unfold Insert.import_records. generalize (iterrows df) as rows.
    intros rows. revert s. induction rows as [| row rows IH]; intros s; [reflexivity |].
    cbn [for_each]. unfold mbind, M_bind.
    pose proof (import_row_rejected_db svc hash mapping row s
                  (fun r => Hrej _ _ r)) as Hrow.
    destruct (Insert.import_row svc hash mapping row s) as [s1 [[] | e |]];
      cbn [fst] in Hrow |- *; [| exact Hrow | exact Hrow].
    now rewrite IH. }
  split; [exact Hdb |].
  intros f1 f2. rewrite !is_duplicate_run. cbn [snd]. now rewrite Hdb.
Qed.

Lemma import_records_all_rejected_table_unchanged_witness :
  db (fst (Insert.import_records (svc_status 500) hash0 mapping1
             (mkDataFrame columns1 [[PStr "c"; PStr "d"]; [PNone; PStr "x"]])
             (initial (Some table_ab)))) = Some table_ab.
Proof.
  apply (import_records_all_rejected_table_unchanged (svc_status 500) hash0 mapping1
           (mkDataFrame columns1 [[PStr "c"; PStr "d"]; [PNone; PStr "x"]])
           (initial (Some table_ab))).
  intros tr fields r Hr. injection Hr as <-. cbn. lia.
Defined.

(** X8: a row of two texts that stands twice in the frame is submitted
    once: the first occurrence, answered with status 200, is recorded, and
    the second is skipped as a duplicate. *)
Theorem repeated_row_submitted_once :
  forall svc hash mapping cols cells s t a b r,
    let row := combine cols cells in
    db s = Some t ->
    Series_get row "field1" (PStr "") = PStr a ->
    Series_get row "field2" (PStr "") = PStr b ->
    snd (SQLiteManager.is_duplicate (PStr a) (PStr b) s) = Ok false ->
    svc (trace s) (create_request mapping row) = inr r ->
    status_code r = 200 ->
    let res := Insert.import_records svc hash mapping (mkDataFrame cols [cells; cells]) s in
    snd res = Ok tt /\
    trace (fst res) = trace s ++ [create_request mapping row] /\
    snd (SQLiteManager.is_duplicate (PStr a) (PStr b) (fst res)) = Ok true.
Proof.
  intros svc hash mapping cols cells s t a b r row Hdb Ha Hb Hdup Hsvc Hstatus res.
  rewrite (is_duplicate_text a b s t Hdb) in Hdup. injection Hdup as Hdup.
  pose proof (import_row_text_run svc hash mapping row s t a b r
                Hdb Ha Hb Hdup Hsvc Hstatus) as Hrun1.
  subst res. rewrite import_records_cons. fold row. rewrite Hrun1.
  rewrite import_records_cons. fold row.
  match goal with
  | |- context [Insert.import_row _ _ _ _ ?s1] =>
      assert (Hdup1 : snd (SQLiteManager.is_duplicate (Series_get row "field1" (PStr ""))
                             (Series_get row "field2" (PStr "")) s1) = Ok true)
  end.
  { rewrite Ha, Hb. erewrite is_duplicate_text by reflexivity.
    now rewrite tracked_insert_text. }
  rewrite (import_row_tracked _ _ _ _ _ Hdup1).
  cbn [Insert.import_records iterrows values map for_each mret M_ret fst snd trace].
  split; [reflexivity |]. split; [reflexivity |].
  erewrite is_duplicate_text by reflexivity. now rewrite tracked_insert_text.
Qed.

Lemma repeated_row_submitted_once_witness :
  trace (fst (Insert.import_records (svc_status 200) hash0 mapping1
                (mkDataFrame columns1 [[PStr "c"; PStr "d"]; [PStr "c"; PStr "d"]])
                (initial (Some table_ab)))) =
    [PostDocuments [mkField "field1" (PStr "c"); mkField "field2" (PStr "d")]].
Proof.
  assert (Hdup : snd (SQLiteManager.is_duplicate (PStr "c") (PStr "d")
                        (initial (Some table_ab))) = Ok false)
    by (vm_compute; reflexivity).
  destruct (repeated_row_submitted_once (svc_status 200) hash0 mapping1 columns1
              [PStr "c"; PStr "d"] (initial (Some table_ab)) table_ab "c" "d" (reply 200)
              eq_refl eq_refl eq_refl Hdup eq_refl eq_refl) as (_ & Htrace & _).
  exact Htrace.
Defined.

(** X7: the id of a recorded row is made from the concatenation of its two
    texts, so two different pairs with the same concatenation share their
    id: when both rows are submitted and answered with status 200, the
    second replaces the first in the table, and the first pair is no
    longer reported as a duplicate. *)
Theorem pairs_with_equal_concatenation_share_id :
  forall svc hash s t a b c d,
    db s = Some t ->
    (forall tr fields, exists r, svc tr (PostDocuments fields) = inr r /\ status_code r = 200) ->
    a +:+ b = c +:+ d ->
    (a, b) <> (c, d) ->
    snd (SQLiteManager.is_duplicate (PStr a) (PStr b) s) = Ok false ->
    snd (SQLiteManager.is_duplicate (PStr c) (PStr d) s) = Ok false ->
    let res := Insert.import_records svc hash mapping1
                 (mkDataFrame columns1 [[PStr a; PStr b]; [PStr c; PStr d]]) s in
    snd res = Ok tt /\
    db (fst res) = Some (<["ID_" +:+ str_of_Z (hash (PStr (c +:+ d))) := (SText c, SText d)]> t) /\
    snd (SQLiteManager.is_duplicate (PStr c) (PStr d) (fst res)) = Ok true /\
    snd (SQLiteManager.is_duplicate (PStr a) (PStr b) (fst res)) = Ok false.
Proof.
  intros svc hash s t a b c d Hdb Hsvc Hcat Hne Hab Hcd res.
  rewrite (is_duplicate_text a b s t Hdb) in Hab. injection Hab as Hab.
  rewrite (is_duplicate_text c d s t Hdb) in Hcd. injection Hcd as Hcd.
  assert (Hmiss : sql_where (sql_and (sql_eq (SText a) (SText c))
                                     (sql_eq (SText b) (SText d))) = false).
  { apply not_true_iff_false. rewrite sql_where_text.
    intros (x & y & Hx & Hy & Hx' & Hy'). congruence. }
  assert (Hmiss' : sql_where (sql_and (sql_eq (SText c) (SText a))
                                      (sql_eq (SText d) (SText b))) = false).
  { apply not_true_iff_false. rewrite sql_where_text.
    intros (x & y & Hx & Hy & Hx' & Hy'). congruence. }
  assert (Hgone : forall id p q, tracked t p q = false -> tracked (delete id t) p q = false).
  { intros id p q H. apply not_true_iff_false. intros H'.
    apply tracked_delete_mono in H'. congruence. }
  destruct (Hsvc (trace s) (Insert.build_fields mapping1
                              (combine columns1 [PStr a; PStr b]))) as (r1 & Hr1 & Hs1).
  pose proof (import_row_text_run svc hash mapping1 (combine columns1 [PStr a; PStr b])
                s t a b r1 Hdb eq_refl eq_refl Hab Hr1 Hs1) as Hrun1.
  subst res. rewrite import_records_cons, Hrun1.
  match goal with
  | |- context [Insert.import_records _ _ _ _ ?s1] =>
      destruct (Hsvc (trace s1) (Insert.build_fields mapping1
                                   (combine columns1 [PStr c; PStr d])))
        as (r2 & Hr2 & Hs2);
      pose proof (import_row_text_run svc hash mapping1
                    (combine columns1 [PStr c; PStr d]) s1 _ c d r2
                    eq_refl eq_refl eq_refl) as Hrun2
  end.
  rewrite tracked_insert, Hmiss, (Hgone _ _ _ Hcd) in Hrun2.
  specialize (Hrun2 eq_refl Hr2 Hs2).
  rewrite import_records_cons, Hrun2.
  cbn [Insert.import_records iterrows values map for_each mret M_ret fst snd db].
  rewrite <- Hcat, insert_insert_eq.
  split; [reflexivity |]. split; [reflexivity |].
  split; erewrite is_duplicate_text by reflexivity.
  - now rewrite tracked_insert_text.
  - now rewrite tracked_insert, Hmiss', (Hgone _ _ _ Hab).
Qed.

Lemma pairs_with_equal_concatenation_share_id_witness :
  snd (SQLiteManager.is_duplicate (PStr "ab") (PStr "c")
         (fst (Insert.import_records (svc_status 200) hash0 mapping1
                 (mkDataFrame columns1 [[PStr "ab"; PStr "c"]; [PStr "a"; PStr "bc"]])
                 (initial (Some ∅))))) = Ok false.
Proof.
  assert (Hne : ("ab", "c") <> ("a", "bc")) by discriminate.
  assert (H1 : snd (SQLiteManager.is_duplicate (PStr "ab") (PStr "c")
                      (initial (Some ∅))) = Ok false) by (vm_compute; reflexivity).
  assert (H2 : snd (SQLiteManager.is_duplicate (PStr "a") (PStr "bc")
                      (initial (Some ∅))) = Ok false) by (vm_compute; reflexivity).
  destruct (pairs_with_equal_concatenation_share_id (svc_status 200) hash0
              (initial (Some ∅)) ∅ "ab" "c" "a" "bc" eq_refl
              (fun _ _ => ex_intro _ (reply 200) (conj eq_refl eq_refl))
              eq_refl Hne H1 H2) as (_ & _ & _ & H).
  exact H.
Defined.

(** ** The import entry point, continued *)

Lemma fetch_data_run ACCESS s :
  exists l,
    Insert.fetch_data ACCESS s =
      (mkState (trace s) (db s) (log s ++ [l]) (stdout s),
       Ok (match ACCESS with
           | QueryResult df => df
           | _ => empty_DataFrame
           end)).
Proof.
  unfold Insert.fetch_data, Insert.connect_access, mbind, M_bind, mret, M_ret, logging.
  destruct ACCESS as [e | e | df]; cbn; eexists; reflexivity.
Qed.

Lemma import_set1_no_data svc hash ACCESS session s :
  no_data ACCESS ->
  exists l,
    Insert.import_set1 svc hash ACCESS session s =
      (mkState (trace s) (db s)
               (log s ++ [l; mkLog WARNING "Aborted: No data found for import." []])
               (stdout s), Ok tt).
Proof.
  intros Hno. unfold Insert.import_set1. unfold mbind at 1, M_bind at 1.
  destruct (fetch_data_run ACCESS s) as [l Hfetch]. rewrite Hfetch.
  exists l.
  assert (Hempty : df_empty (match ACCESS with
                             | QueryResult df => df
                             | _ => empty_DataFrame
                             end) = true).
  { destruct ACCESS as [e | e | df]; [reflexivity | reflexivity | exact Hno]. }
  rewrite Hempty. unfold logging. cbn [trace db log stdout].
  now rewrite <- app_assoc.
Qed.

Lemma docuware_login_accepted svc s r :
  svc (trace s) PostLogon = inr r ->
  status_code r = 200 ->
  Insert.docuware_login svc s =
    (mkState (trace s ++ [PostLogon]) (db s)
             (log s ++ [mkLog INFO "DocuWare login successful." []]) (stdout s),
     Ok requests_Session).
Proof.
  intros Hsvc Hstatus.
  unfold Insert.docuware_login, http, mbind, M_bind. rewrite Hsvc, Hstatus.
  reflexivity.
Qed.

Lemma docuware_logout_run svc session s :
  exists l,
    Insert.docuware_logout svc session s =
      (mkState (trace s ++ [PostLogoff]) (db s) (log s ++ [l]) (stdout s), Ok tt).
Proof.
  unfold Insert.docuware_logout, try_except, http, mbind, M_bind, logging.
  destruct (svc (trace s) PostLogoff); eexists; reflexivity.
Qed.

(** The run of [main] after an accepted logon: the profile, then the
    logout, then what the profile ended with. *)
Lemma insert_main_accepted svc hash ACCESS fuel s r :
  svc (trace s) PostLogon = inr r ->
  status_code r = 200 ->
  Insert.main svc hash ACCESS (S fuel) s =
    match Insert.import_set1 svc hash ACCESS requests_Session
            (mkState (trace s ++ [PostLogon])
                     (Some (match db s with Some t => t | None => ∅ end))
                     (log s ++ [mkLog INFO "SQLite table '{self.table_name}' initialized." [];
                                mkLog INFO "DocuWare login successful." []])
                     (stdout s)) with
    | (s2, Ok _) => (fst (Insert.docuware_logout svc requests_Session s2), Ok tt)
    | (s2, Raise e) => (fst (Insert.docuware_logout svc requests_Session s2), Raise e)
    | (s2, OutOfFuel) => (s2, OutOfFuel)
    end.
Proof.
  intros Hsvc Hstatus.
  pose proof (docuware_login_accepted svc (fst (SQLiteManager.setup s)) r Hsvc Hstatus)
    as Hlogin.
  unfold Insert.main. unfold mbind at 1, M_bind at 1.
  rewrite setup_run in *. cbn [fst while_true trace db log stdout] in *.
  unfold mbind at 1, M_bind at 1. unfold Insert.main_iteration, Insert.main_try.
  rewrite Hlogin. rewrite <- app_assoc. cbn [app].
  unfold mbind at 1, M_bind at 1.
  destruct (Insert.import_set1 _ _ _ _ _) as [s2 [[] | e |]]; cbn [mret M_ret].
  - destruct (docuware_logout_returns svc requests_Session s2) as [s3 Hout].
    rewrite Hout. reflexivity.
  - destruct (docuware_logout_returns svc requests_Session s2) as [s3 Hout].
    rewrite Hout. reflexivity.
  - reflexivity.
Qed.

(** X4: when the source gives no row (no connection, a failed query or an
    empty result), the import profile issues no request and leaves the
    table as it is; it ends with the warning, and a run whose logon is
    accepted consists of the logon and the logoff. *)
Theorem import_without_data_submits_nothing :
  forall svc hash ACCESS session fuel s,
    no_data ACCESS ->
    let res := Insert.import_set1 svc hash ACCESS session s in
    snd res = Ok tt /\
    trace (fst res) = trace s /\
    db (fst res) = db s /\
    last (log (fst res)) = Some (mkLog WARNING "Aborted: No data found for import." []) /\
    (forall r,
        svc (trace s) PostLogon = inr r ->
        status_code r = 200 ->
        snd (Insert.main svc hash ACCESS (S fuel) s) = Ok tt /\
        trace (fst (Insert.main svc hash ACCESS (S fuel) s)) =
          trace s ++ [PostLogon; PostLogoff]).
Proof.
  intros svc hash ACCESS session fuel s Hno res. subst res.
  destruct (import_set1_no_data svc hash ACCESS session s Hno) as [l Hrun].
  rewrite Hrun. cbn [fst snd trace db log].
  split; [reflexivity |]. split; [reflexivity |]. split; [reflexivity |]. split.
  - rewrite last_app. reflexivity.
  - intros r Hsvc Hstatus.
    rewrite (insert_main_accepted svc hash ACCESS fuel s r Hsvc Hstatus).
    match goal with
    | |- context [Insert.import_set1 _ _ _ _ ?s1] =>
        destruct (import_set1_no_data svc hash ACCESS requests_Session s1 Hno)
          as [l1 Hrun1]; rewrite Hrun1
    end.
    match goal with
    | |- context [Insert.docuware_logout _ _ ?s2] =>
        destruct (docuware_logout_run svc requests_Session s2) as [l2 Hout];
        rewrite Hout
    end.
    cbn [fst snd trace]. split; [reflexivity |]. now rewrite <- app_assoc.
Qed.

Lemma import_without_data_submits_nothing_witness :
  trace (fst (Insert.main (svc_status 200) hash0 (ConnectFails (Exception "no driver")) 1
                (initial None))) = [PostLogon; PostLogoff].
Proof.
  destruct (import_without_data_submits_nothing (svc_status 200) hash0
              (ConnectFails (Exception "no driver")) requests_Session 0%nat
              (initial None) I) as (_ & _ & _ & _ & H).
  destruct (H (reply 200) eq_refl eq_refl) as [_ Htrace]. exact Htrace.
Defined.

(** *** Commands without a [while] loop need no fuel *)

Lemma fuel_free_ret {A} (a : A) : fuel_free (mret a).
Proof. intros s. discriminate. Qed.

Lemma fuel_free_lift {A} (r : pyexn + A) : fuel_free (lift r).
Proof. intros s. destruct r; discriminate. Qed.

Lemma fuel_free_logging lvl msg args : fuel_free (logging lvl msg args).
Proof. intros s. discriminate. Qed.

Lemma fuel_free_http svc req : fuel_free (http svc req).
Proof. intros s. unfold http. destruct (svc (trace s) req); discriminate. Qed.

Lemma fuel_free_bind {A B} (m : M A) (k : A -> M B) :
  fuel_free m -> (forall a, fuel_free (k a)) -> fuel_free (m ≫= k).
Proof.
  intros Hm Hk s. unfold mbind, M_bind. specialize (Hm s).
  destruct (m s) as [s1 [a | e |]]; cbn in *; [apply Hk | discriminate | congruence].
Qed.

Lemma fuel_free_for_each {A} (body : A -> M unit) xs :
  (forall x, fuel_free (body x)) -> fuel_free (for_each body xs).
Proof.
  intros Hbody. induction xs as [| x xs IH]; cbn [for_each].
  - apply fuel_free_ret.
  - apply fuel_free_bind; [apply Hbody | intros _; exact IH].
Qed.

Lemma fuel_free_import_row svc hash mapping row :
  fuel_free (Insert.import_row svc hash mapping row).
Proof.
  unfold Insert.import_row. apply fuel_free_bind.
  - intros s. rewrite is_duplicate_run. cbn. destruct (db s); discriminate.
  - intros [|]; [apply fuel_free_logging |].
    apply fuel_free_bind; [apply fuel_free_http | intros r].
    destruct (status_code r =? 200).
    + apply fuel_free_bind; [apply fuel_free_logging | intros _].
      apply fuel_free_bind; [apply fuel_free_lift | intros key].
      intros s. rewrite insert_run. destruct (db s); discriminate.
    + apply fuel_free_bind; [apply fuel_free_logging | intros _].
      apply fuel_free_logging.
Qed.

Lemma fuel_free_import_set1 svc hash ACCESS session :
  fuel_free (Insert.import_set1 svc hash ACCESS session).
Proof.
  unfold Insert.import_set1. apply fuel_free_bind.
  - intros s. destruct (fetch_data_run ACCESS s) as [l H]. rewrite H. discriminate.
  - intros df. destruct (df_empty df); [apply fuel_free_logging |].
    apply fuel_free_for_each. intros row. apply fuel_free_import_row.
Qed.

Lemma fuel_free_docuware_login svc : fuel_free (Insert.docuware_login svc).
Proof.
  unfold Insert.docuware_login. apply fuel_free_bind; [apply fuel_free_http | intros r].
  destruct (negb (status_code r =? 200));
    (apply fuel_free_bind; [apply fuel_free_logging | intros _]);
    [intros s; discriminate | apply fuel_free_ret].
Qed.

(** The requests of the profile: create requests of rows of the result. *)
Lemma import_set1_requests svc hash ACCESS session s :
  exists reqs,
    trace (fst (Insert.import_set1 svc hash ACCESS session s)) = trace s ++ reqs /\
    sublist reqs
      (map (create_request mapping1)
           (iterrows (match ACCESS with
                      | QueryResult df => df
                      | _ => empty_DataFrame
                      end))).
Proof.
  unfold Insert.import_set1. unfold mbind at 1, M_bind at 1.
  destruct (fetch_data_run ACCESS s) as [l Hfetch]. rewrite Hfetch.
  destruct (df_empty _).
  - exists []. cbn. rewrite app_nil_r. split; [reflexivity | apply sublist_nil_l].
  - unfold Insert.import_records.
    match goal with
    | |- context [for_each _ ?rows ?s1] =>
        destruct (import_rows_requests svc hash mapping1 rows s1) as (reqs & Hreqs & Hsub)
    end.
    exists reqs. split; [exact Hreqs | exact Hsub].
Qed.

(** X5: after an accepted logon the import ends with the logoff request,
    whether the profile returns or raises; between the logon and the
    logoff it issues create requests only, at most one for each row of the
    source, and it does not run on. *)
Theorem accepted_logon_is_followed_by_logoff :
  forall svc hash ACCESS fuel s r,
    svc (trace s) PostLogon = inr r ->
    status_code r = 200 ->
    let res := Insert.main svc hash ACCESS (S fuel) s in
    snd res <> OutOfFuel /\
    exists reqs,
      trace (fst res) = trace s ++ PostLogon :: reqs ++ [PostLogoff] /\
      Forall (fun req => is_PostDocuments req = true) reqs /\
      (length reqs <= match ACCESS with
                      | QueryResult df => length (values df)
                      | _ => 0
                      end)%nat.
Proof.
  intros svc hash ACCESS fuel s r Hsvc Hstatus res. subst res.
  rewrite (insert_main_accepted svc hash ACCESS fuel s r Hsvc Hstatus).
  match goal with
  | |- context [Insert.import_set1 _ _ _ _ ?s1] =>
      pose proof (fuel_free_import_set1 svc hash ACCESS requests_Session s1) as Hfree;
      destruct (import_set1_requests svc hash ACCESS requests_Session s1)
        as (reqs & Hreqs & Hsub);
      destruct (Insert.import_set1 svc hash ACCESS requests_Session s1)
        as [s2 [[] | e |]]
  end; cbn [fst snd trace] in *; [| | congruence].
  all: destruct (docuware_logout_run svc requests_Session s2) as [l Hout];
    rewrite Hout; cbn [fst trace]; (split; [discriminate |]);
    exists reqs; rewrite Hreqs, <- !app_assoc; (split; [reflexivity |]); split.
  all: try (apply Forall_forall; intros req Hin;
            apply (elem_of_sublist _ _ _ Hin) in Hsub;
            apply list_elem_of_In, in_map_iff in Hsub as (row & <- & _); reflexivity).
  all: apply sublist_length in Hsub; rewrite length_map in Hsub;
    unfold iterrows in Hsub; rewrite length_map in Hsub;
    destruct ACCESS; exact Hsub.
Qed.

Lemma accepted_logon_is_followed_by_logoff_witness :
  exists reqs,
    trace (fst (Insert.main (svc_status 200) hash0 access_none_x 1 (initial None))) =
      PostLogon :: reqs ++ [PostLogoff].
Proof.
  destruct (accepted_logon_is_followed_by_logoff (svc_status 200) hash0 access_none_x
              0%nat (initial None) (reply 200) eq_refl eq_refl)
    as (_ & reqs & Htrace & _).
  exists reqs. exact Htrace.
Defined.

(** X3: the [while True] of the import entry point never repeats: its
    body breaks or raises, so a run with any fuel is the run of one
    iteration, and it never runs on. *)
Theorem import_main_runs_its_loop_once :
  forall svc hash ACCESS fuel s,
    Insert.main svc hash ACCESS (S fuel) s = Insert.main svc hash ACCESS 1 s /\
    snd (Insert.main svc hash ACCESS 1 s) <> OutOfFuel /\
    snd (Insert.main_iteration svc hash ACCESS s) <> Ok Continue.
Proof.
  assert (Hiter : forall svc hash ACCESS s,
             snd (Insert.main_iteration svc hash ACCESS s) <> Ok Continue /\
             snd (Insert.main_iteration svc hash ACCESS s) <> OutOfFuel).
  { intros svc hash ACCESS s. unfold Insert.main_iteration, Insert.main_try.
    pose proof (fuel_free_docuware_login svc s) as Hlogin.
    destruct (Insert.docuware_login svc s) as [s1 [session | e |]];
      cbn [snd] in Hlogin; [| split; discriminate | congruence].
    pose proof (fuel_free_import_set1 svc hash ACCESS session s1) as Hset.
    unfold mbind, M_bind.
    destruct (Insert.import_set1 svc hash ACCESS session s1) as [s2 [[] | e |]];
      cbn [snd mret M_ret] in Hset |- *; [| | congruence].
    all: destruct (docuware_logout_returns svc session s2) as [s3 Hout];
      rewrite Hout; split; discriminate. }
  assert (Hmain : forall svc hash ACCESS fuel s,
             Insert.main svc hash ACCESS fuel s =
             while_true fuel (Insert.main_iteration svc hash ACCESS)
                        (fst (SQLiteManager.setup s))).
  { intros svc hash ACCESS fuel s. unfold Insert.main. unfold mbind at 1, M_bind at 1.
    now rewrite setup_run. }
  intros svc hash ACCESS fuel s. rewrite !Hmain.
  destruct (Hiter svc hash ACCESS (fst (SQLiteManager.setup s))) as [Hc Hf].
  cbn [while_true]. unfold mbind, M_bind.
  split; [| split; [| apply Hiter]];
    destruct (Insert.main_iteration svc hash ACCESS (fst (SQLiteManager.setup s)))
      as [s1 [[|] | e |]]; cbn [snd mret M_ret] in *; congruence.
Qed.

(** ** The deletion loop, continued *)

Lemma assoc_get_missing o key default :
  (forall v, ~ In (key, v) o) -> assoc_get o key default = default.
Proof.
  induction o as [| [k v] o IH]; intros Hmiss; [reflexivity |].
  cbn [assoc_get]. destruct (String.eqb k key) eqn:E.
  - apply String.eqb_eq in E. subst k. exfalso. apply (Hmiss v). now left.
  - apply IH. intros v' Hin. apply (Hmiss v'). now right.
Qed.

(** X12: an entry whose [Id] is falsy (0, the empty string, null, or no
    [Id] at all) is deleted under its [DocID]; when it has no [DocID]
    either, the DELETE request is still issued, for the id None. *)
Theorem entry_without_Id_is_deleted_by_DocID :
  forall svc session o s,
    json_truthy (assoc_get o "Id" JNull) = false ->
    trace (fst (Delete.delete_item svc session (JObj o) s)) =
      trace s ++ [DeleteDocument (assoc_get o "DocID" JNull)] /\
    ((forall v, ~ In ("Id", v) o) -> (forall v, ~ In ("DocID", v) o) ->
     trace (fst (Delete.delete_item svc session (JObj o) s)) =
       trace s ++ [DeleteDocument JNull]).
Proof.
  intros svc session o s Hfalsy.
  assert (Htrace : trace (fst (Delete.delete_item svc session (JObj o) s)) =
                   trace s ++ [DeleteDocument (assoc_get o "DocID" JNull)]).
  { unfold Delete.delete_item. rewrite item_id_object, Hfalsy.
    unfold mbind, M_bind, lift, mret, M_ret, http.
    destruct (svc (trace s) _) as [e | r]; [reflexivity |].
    now destruct (status_code r =? 200). }
  split; [exact Htrace |].
  intros _ Hdoc. rewrite Htrace. now rewrite (assoc_get_missing o "DocID" JNull Hdoc).
Qed.

Lemma entry_without_Id_is_deleted_by_DocID_witness :
  trace (fst (Delete.delete_item (svc_status 200) requests_Session
                (JObj [("Id", JInt 0); ("DocID", JInt 7)]) (initial None))) =
    [DeleteDocument (JInt 7)].
Proof.
  apply (entry_without_Id_is_deleted_by_DocID (svc_status 200) requests_Session
           [("Id", JInt 0); ("DocID", JInt 7)] (initial None)).
  reflexivity.
Defined.

Lemma answered_deletes svc items :
  (forall tr id, exists r, svc tr (DeleteDocument id) = inr r) ->
  forall tr, answered svc tr (map delete_request items).
Proof.
  intros Hsvc. induction items as [| item items IH]; intros tr; cbn; [exact I |].
  split; [apply Hsvc | apply IH].
Qed.

(** X13: the loop has no other exit than an empty or failed listing: on a
    service that answers every listing with the same non-empty page, the
    loop lists and deletes that page again in every iteration and has not
    returned after any number of them, and the run of [main] does not come
    to clearing the table. *)
Theorem deletion_loop_runs_on_while_entries_are_listed :
  forall svc session items fuel s,
    items <> [] ->
    Forall is_object items ->
    (forall tr, svc tr GetDocuments = inr (listing items)) ->
    (forall tr id, exists r, svc tr (DeleteDocument id) = inr r) ->
    (exists l,
        Delete.delete_docuware_data svc fuel session s =
          (mkState (trace s ++ concat (repeat (page_requests items) fuel))
                   (db s) (log s ++ l) (stdout s), OutOfFuel)) /\
    (forall r, svc (trace s) PostLogon = inr r ->
               snd (Delete.main svc fuel s) = OutOfFuel /\
               db (fst (Delete.main svc fuel s)) = db s).
Proof.
  intros svc session items fuel s Hne Hobj Hlist Hdel.
  assert (Hloop : forall session fuel s, exists l,
             Delete.delete_docuware_data svc fuel session s =
               (mkState (trace s ++ concat (repeat (page_requests items) fuel))
                        (db s) (log s ++ l) (stdout s), OutOfFuel)).
  { clear session fuel s. intros session fuel.
    induction fuel as [| fuel IH]; intros s.
    - exists []. cbn. rewrite !app_nil_r. now destruct s.
    - destruct (delete_iteration_page svc session s (listing items)
                  (JObj [("Items", JArr items)]) items
                  (Hlist _) eq_refl eq_refl eq_refl Hne Hobj
                  (answered_deletes svc items Hdel _)) as [l1 Hrun].
      unfold Delete.delete_docuware_data in *. cbn [while_true].
      unfold mbind at 1, M_bind at 1. rewrite Hrun.
      destruct (IH (mkState (trace s ++ page_requests items) (db s) (log s ++ l1)
                            (stdout s))) as [l2 Hrest].
      rewrite Hrest. cbn [trace db log stdout repeat concat].
      exists (l1 ++ l2). now rewrite <- !app_assoc. }
  split; [apply Hloop |].
  intros r Hlogin.
  destruct (login_answered svc s r Hlogin) as [l1 Hrun1].
  destruct (Hloop requests_Session fuel
              (mkState (trace s ++ [PostLogon]) (db s) (log s ++ [l1]) (stdout s)))
    as [l2 Hrun2].
  assert (Hbody : delete_main_body svc fuel s =
                  (mkState ((trace s ++ [PostLogon])
                              ++ concat (repeat (page_requests items) fuel))
                           (db s) ((log s ++ [l1]) ++ l2) (stdout s), OutOfFuel)).
  { unfold delete_main_body. unfold mbind at 1, M_bind at 1. rewrite Hrun1.
    unfold mbind, M_bind. now rewrite Hrun2. }
  rewrite delete_main_catches, Hbody. split; reflexivity.
Qed.

Lemma deletion_loop_runs_on_while_entries_are_listed_witness :
  snd (Delete.main (svc_stuck [document 1]) 5 (initial (Some table_ab))) = OutOfFuel.
Proof.
  assert (Hne : [document 1] <> []) by discriminate.
  assert (Hobj : Forall is_object [document 1]).
  { constructor; [eexists; reflexivity | constructor]. }
  destruct (deletion_loop_runs_on_while_entries_are_listed
              (svc_stuck [document 1]) requests_Session [document 1] 5%nat
              (initial (Some table_ab)) Hne Hobj (fun _ => eq_refl)
              (fun _ _ => ex_intro _ (reply 403) eq_refl)) as [_ H].
  destruct (H (reply 200) eq_refl) as [Hout _]. exact Hout.
Defined.

(** X14: when the first listing request ends in an exception (the HTTP
    library raises, or the body of a 200 answer is not JSON), the run
    reports it as a failed script and does not clear the tracking table:
    the table is as it was. *)
Theorem listing_exception_leaves_table_uncleared :
  forall svc fuel s r_login e,
    svc (trace s) PostLogon = inr r_login ->
    listing_raises svc (trace s ++ [PostLogon]) e ->
    exists l,
      Delete.main svc (S fuel) s =
        (mkState (trace s ++ [PostLogon; GetDocuments]) (db s)
                 (log s ++ l ++ [mkLog ERROR "Script failed: %s" [LExn e]])
                 (stdout s), Ok tt).
Proof.
  intros svc fuel s r_login e Hlogin Hraises.
  destruct (login_answered svc s r_login Hlogin) as [l1 Hrun1].
  unfold Delete.main, try_except. unfold mbind at 1, M_bind at 1. rewrite Hrun1.
  unfold Delete.delete_docuware_data. cbn [while_true].
  unfold Delete.delete_iteration, http, mbind, M_bind. cbn [trace db log stdout].
  destruct Hraises as [Hsvc | (r & Hsvc & Hstatus & Hbody & ->)]; rewrite Hsvc.
  - exists [l1]. unfold logging. cbn [trace db log stdout].
    now rewrite <- !app_assoc.
  - rewrite Hstatus. cbn [negb Z.eqb Pos.eqb]. unfold response_json. rewrite Hbody.
    exists [l1]. unfold logging. cbn. now rewrite <- !app_assoc.
Qed.

Lemma listing_exception_leaves_table_uncleared_witness :
  db (fst (Delete.main (svc_status 200) 1 (initial (Some table_ab)))) = Some table_ab.
Proof.
  destruct (listing_exception_leaves_table_uncleared (svc_status 200) 0%nat
              (initial (Some table_ab)) (reply 200) JSONDecodeError eq_refl
              (or_intror (ex_intro _ (reply 200)
                                   (conj eq_refl (conj eq_refl (conj eq_refl eq_refl))))))
    as [l Hrun].
  now rewrite Hrun.
Defined.
